(** * Restaurant database CLI: transactions, reservations, orders and menu

    A shallow embedding of [database.py] (connection and transaction
    manager) and of the workflows of [cli.py] (create_reservation,
    list_reservations, add_order_item, add_menu_item, update_menu_item),
    followed by the properties of the specification that concern them.

    Conventions of the embedding:
    - a table is the list of its rows, in insertion order;
    - Python [int] is [Z], a price ([float], SQLite REAL) is a rational [Q]:
      prices are only copied, multiplied, summed and compared with 0;
    - text columns are [string]s and are compared the way SQLite compares
      TEXT under the BINARY collation, byte by byte ([String.leb]);
    - a unit of work is a program of a small state and error monad [M] whose
      state is what the cursor of one connection sees;
    - [console.print] appends a [message] to the console, [typer.Exit(n)]
      is the exception [Exit n], [typer.confirm] reads the operator's answer,
      which is an argument of the command. *)

From Stdlib Require Import List String Ascii ZArith QArith Bool Arith Lia Sorted.
Import ListNotations.

Local Open Scope string_scope.
Local Open Scope Z_scope.

(** ** Dates and times of day *)

(** [datetime.date]: what [strptime(date_str, "%Y-%m-%d").date()] returns. *)
Record date := mkDate { year : nat; month : nat; day : nat }.

(** [a < b] on [datetime.date]: lexicographic on year, month, day. *)
Definition date_ltb (a b : date) : bool :=
  (year a <? year b)%nat
  || ((year a =? year b)%nat
      && ((month a <? month b)%nat
          || ((month a =? month b)%nat && (day a <? day b)%nat))).

(** A time of day, what [strptime(time_str, "%H:%M")] reads. *)
Record time := mkTime { hour : nat; minute : nat }.

Definition digit (n : nat) : ascii := ascii_of_nat (48 + n mod 10).

Definition two_digits (n : nat) : string :=
  String (digit (n / 10)) (String (digit n) EmptyString).

Definition four_digits (n : nat) : string :=
  String (digit (n / 1000)) (String (digit (n / 100)) (two_digits n)).

(** The text [YYYY-MM-DD] of a date: the [date_str] the command received.
    The commands are modelled from the point where [strptime] has accepted
    [date_str] and [time_str], for the zero-padded texts the help of the
    options asks for; the text handed to SQL is then this rendering. *)
Definition isoformat (d : date) : string :=
  four_digits (year d) ++ "-" ++ two_digits (month d) ++ "-" ++ two_digits (day d).

(** The text [HH:MM] of a time of day: the [time_str] of the command. *)
Definition hhmm (t : time) : string :=
  two_digits (hour t) ++ ":" ++ two_digits (minute t).

(** SQLite's [time(time_str, '<hours> hour')] for [time_str = hhmm t]: the
    time of day shifted by whole hours, wrapped around midnight, rendered
    in SQLite's format [HH:MM:SS]. *)
Definition sqlite_time (t : time) (hours : Z) : string :=
  let m := (Z.of_nat (hour t) * 60 + Z.of_nat (minute t) + 60 * hours) mod 1440 in
  two_digits (Z.to_nat (m / 60)) ++ ":" ++ two_digits (Z.to_nat (m mod 60)) ++ ":00".

(** SQL [x BETWEEN lo AND hi] on TEXT values. *)
Definition between (x lo hi : string) : bool :=
  String.leb lo x && String.leb x hi.

(** SQL [x IN (v1, ..., vn)] on TEXT values; also Python's [x in [...]]. *)
Definition text_in (x : string) (vs : list string) : bool :=
  existsb (String.eqb x) vs.

(** ** Rows and tables *)

Record customer := mkCustomer {
  cu_customer_id : Z;
  cu_first_name : string;
  cu_last_name : string }.

(** A row of [tables]. *)
Record dining_table := mkTable {
  tb_table_id : Z;
  tb_table_number : string;
  tb_capacity : Z }.

Record reservation := mkReservation {
  rs_reservation_id : Z;
  rs_customer_id : Z;
  rs_table_id : Z;
  rs_reservation_date : string;
  rs_reservation_time : string;
  rs_party_size : Z;
  rs_status : string;
  rs_special_requests : option string }.

Record category := mkCategory {
  ct_category_id : Z;
  ct_name : string }.

Record menu_item := mkMenuItem {
  mi_item_id : Z;
  mi_name : string;
  mi_description : option string;
  mi_price : Q;
  mi_category_id : Z;
  mi_is_available : Z }.

Record order := mkOrder {
  od_order_id : Z;
  od_status : string;
  od_subtotal : Q;
  od_tax : Q;
  od_tip : Q;
  od_total : Q }.

Record order_item := mkOrderItem {
  oi_order_item_id : Z;
  oi_order_id : Z;
  oi_item_id : Z;
  oi_quantity : Z;
  oi_unit_price : Q;
  oi_special_instructions : option string }.

(** Modelled from the spec: [schema.sql] is not among the sources.  What the
    workflows need from it are the column defaults that their INSERTs leave
    to the schema and the fixed tax rate of the order totals (spec 4.3:
    tax = subtotal x fixed rate); they are kept with the database. *)
Record schema := mkSchema {
  default_reservation_status : string;
  default_is_available : Z;
  tax_rate : Q }.

(** The content of the database file.  Only the columns that the modelled
    commands read or write are kept. *)
Record database := mkDatabase {
  ddl : schema;
  customers : list customer;
  tables : list dining_table;
  reservations : list reservation;
  categories : list category;
  menu_items : list menu_item;
  orders : list order;
  order_items : list order_item }.

Definition empty_database (s : schema) : database :=
  mkDatabase s [] [] [] [] [] [] [].

Definition with_reservations (d : database) (rs : list reservation) : database :=
  mkDatabase (ddl d) (customers d) (tables d) rs (categories d)
             (menu_items d) (orders d) (order_items d).

Definition with_menu_items (d : database) (ms : list menu_item) : database :=
  mkDatabase (ddl d) (customers d) (tables d) (reservations d) (categories d)
             ms (orders d) (order_items d).

Definition with_orders (d : database) (os : list order) : database :=
  mkDatabase (ddl d) (customers d) (tables d) (reservations d) (categories d)
             (menu_items d) os (order_items d).

Definition with_order_items (d : database) (ois : list order_item) : database :=
  mkDatabase (ddl d) (customers d) (tables d) (reservations d) (categories d)
             (menu_items d) (orders d) ois.

(** The identity SQLite gives to a new row: one more than the largest
    identity in the table ([cursor.lastrowid]). *)
Definition next_id {A : Type} (key : A -> Z) (rows : list A) : Z :=
  1 + fold_right (fun r m => Z.max (key r) m) 0 rows.

(** ** Statements, console and exceptions *)

Inductive table_name :=
| Customers | Tables | Reservations | Categories | MenuItems | Orders
| OrderItems | SqliteMaster.

(** The statements a connection is asked to run, by kind and table. *)
Inductive stmt :=
| PRAGMA_foreign_keys_ON
| SELECT (t : table_name)
| INSERT (t : table_name)
| UPDATE (t : table_name)
| SCRIPT.

Definition is_write (s : stmt) : bool :=
  match s with
  | INSERT _ | UPDATE _ | SCRIPT => true
  | PRAGMA_foreign_keys_ON | SELECT _ => false
  end.

(** What [console.print] shows before a command gives up or goes on; one
    constructor per message of [cli.py]. *)
Inductive message :=
| DatabaseNotInitialized
| PastDate                                   (* Cannot create reservation for past date. *)
| PartySizeTooSmall                          (* Party size must be at least 1. *)
| CustomerNotFound (customer_id : Z)
| TableNotFound (table_id : Z)
| CapacityWarning (party_size capacity : Z)  (* Warning: Party size exceeds table capacity. *)
| TableAlreadyReserved                       (* Table already reserved at this time. *)
| QuantityTooSmall                           (* Quantity must be at least 1. *)
| OrderNotFound (order_id : Z)
| CannotModifyOrder (status : string)        (* Cannot modify completed/cancelled order. *)
| MenuItemNotFound (item_id : Z)
| ItemUnavailable (name : string)            (* <name> is currently unavailable. *)
| PriceNotPositive                           (* Price must be greater than 0. *)
| CategoryNotFound (category_id : Z)
| AvailableCategories (cats : list (Z * string))
| NoUpdatesSpecified                         (* No updates specified. *)
| NoUpcomingReservations.

Inductive exn :=
| Exit (code : Z)        (* typer.Exit(code); typer.Exit() is Exit 0 *)
| IntegrityError         (* sqlite3.IntegrityError: a foreign key has no parent *)
| OperationalError       (* sqlite3.OperationalError: no such table *)
| TypeError.             (* subscripting None *)

(** ** The monad of a unit of work

    The state is what the body of [with get_db_cursor() as (conn, cursor)]
    can reach through [cursor.execute] and [console.print]: the rows as the
    connection sees them, the statements it has run, the console.  The last
    commit of the connection is out of its reach: no body of the program
    calls [conn.commit] or [conn.rollback]. *)
Record ctx := mkCtx {
  foreign_keys : bool;
  view : database;
  issued : list stmt;
  out : list message }.

Definition M (A : Type) : Type := ctx -> (exn + A) * ctx.

Definition ret {A} (a : A) : M A := fun c => (inr a, c).

Definition bind {A B} (m : M A) (k : A -> M B) : M B :=
  fun c => match m c with
           | (inr a, c') => k a c'
           | (inl e, c') => (inl e, c')
           end.

Definition raise {A} (e : exn) : M A := fun c => (inl e, c).

Notation "x <- m ;; k" := (bind m (fun x => k))
  (at level 61, m at next level, right associativity).
Notation "m ;; k" := (bind m (fun _ => k))
  (at level 61, right associativity).

(** [console.print(...)]: the message is handed to the console.  How rich
    renders it is not modelled: the texts shown are taken to be free of
    markup that rich cannot parse. *)
Definition print (m : message) : M unit :=
  fun c => (inr tt, mkCtx (foreign_keys c) (view c) (issued c) (out c ++ [m])).

(** [cursor.execute] of a read: the statement is recorded, the rows are not
    touched.  The integers bound as parameters are taken to fit in 64 bits
    ([int64] below); sqlite3 raises OverflowError for any other. *)
Definition query {A} (s : stmt) (f : database -> A) : M A :=
  fun c => (inr (f (view c)),
            mkCtx (foreign_keys c) (view c) (issued c ++ [s]) (out c)).

(** [cursor.execute] of a write.  [parents] says whether every row that the
    written row refers to exists; a connection that enforces foreign keys
    refuses the write otherwise.  Modelled from the spec: which columns are
    foreign keys is said by [schema.sql], which is not among the sources; the
    references are those of spec 3 (a reservation refers to a customer and a
    table, an order line to an order and a menu item, a menu item to a
    category). *)
Definition write {A} (s : stmt) (parents : database -> bool)
           (f : database -> database * A) : M A :=
  fun c =>
    let c' := mkCtx (foreign_keys c) (view c) (issued c ++ [s]) (out c) in
    if foreign_keys c && negb (parents (view c)) then (inl IntegrityError, c')
    else (inr (snd (f (view c))),
          mkCtx (foreign_keys c) (fst (f (view c))) (issued c ++ [s]) (out c)).

(** ** database.py: connections and the transaction manager *)

Record conn := mkConn {
  fk_on : bool;                (* PRAGMA foreign_keys of this connection *)
  committed : database;        (* the file: what the last commit left *)
  working : database;          (* what this connection sees *)
  statements : list stmt;      (* what it has been asked to run *)
  cursor_open : bool;
  conn_open : bool }.

(** [sqlite3.connect(path)] on a file whose content is [d]: SQLite starts
    every connection with foreign keys off. *)
Definition sqlite3_connect (d : database) : conn :=
  mkConn false d d [] false true.

Definition execute_pragma_foreign_keys (c : conn) : conn :=
  mkConn true (committed c) (working c)
         (statements c ++ [PRAGMA_foreign_keys_ON]) (cursor_open c) (conn_open c).

(** [get_connection], database.py:16-30. *)
Definition get_connection (d : database) : conn :=
  execute_pragma_foreign_keys (sqlite3_connect d).

Definition cursor (c : conn) : conn :=
  mkConn (fk_on c) (committed c) (working c) (statements c) true (conn_open c).

Definition commit (c : conn) : conn :=
  mkConn (fk_on c) (working c) (working c) (statements c) (cursor_open c) (conn_open c).

Definition rollback (c : conn) : conn :=
  mkConn (fk_on c) (committed c) (committed c) (statements c) (cursor_open c) (conn_open c).

Definition cursor_close (c : conn) : conn :=
  mkConn (fk_on c) (committed c) (working c) (statements c) false (conn_open c).

(** [conn.close()]: what was not committed is lost. *)
Definition close (c : conn) : conn :=
  mkConn (fk_on c) (committed c) (committed c) (statements c) (cursor_open c) false.

(** What the body sees of a connection, and the connection after the body. *)
Definition enter (c : conn) (console : list message) : ctx :=
  mkCtx (fk_on c) (working c) (statements c) console.

Definition leave (c : conn) (x : ctx) : conn :=
  mkConn (foreign_keys x) (committed c) (view x) (issued x) (cursor_open c) (conn_open c).

(** [get_db_cursor], database.py:33-55, applied to the body of its [with]
    block:
<<
    conn = get_connection(db_path); cursor = conn.cursor()
    try:     yield conn, cursor; conn.commit()
    except Exception as e: conn.rollback(); raise e
    finally: cursor.close(); conn.close()
>>
    It returns what the body returned or raised, the connection as it is left
    and the console. *)
Definition get_db_cursor {A} (body : M A) (d : database) (console : list message)
  : (exn + A) * conn * list message :=
  let conn0 := get_connection d in
  let conn1 := cursor conn0 in
  match body (enter conn1 console) with
  | (inr a, x) => (inr a, close (cursor_close (commit (leave conn1 x))), out x)
  | (inl e, x) => (inl e, close (cursor_close (rollback (leave conn1 x))), out x)
  end.

(** ** Runs of a command

    What one invocation of a command leaves behind: what it returned or
    raised, the console, every connection it opened (as it was left, in the
    order of opening) and the database file.  The file is [None] when there is
    no initialized database.  The result of a command that ends by showing a
    panel or a table is that panel or table, as it is handed to the
    console. *)
Record run (A : Type) := mkRun {
  result : exn + A;
  printed : list message;
  connections : list conn;
  disk : option database }.

Arguments mkRun {A}.
Arguments result {A}.
Arguments printed {A}.
Arguments connections {A}.
Arguments disk {A}.

(** The query of [check_database_exists]: the number of tables in
    [sqlite_master].  An initialized database has the nine tables of the
    schema; a file [Some d] stands for an initialized database, a file
    without its tables is not modelled. *)
Definition count_tables : M Z :=
  query (SELECT SqliteMaster) (fun _ => 9).

(** [check_database_exists], database.py:93-117: false without a file, else
    the answer of a unit of work that counts the tables. *)
Definition check_database_exists (file : option database) : bool * list conn :=
  match file with
  | None => (false, [])
  | Some d =>
      match get_db_cursor count_tables d [] with
      | (inr count, c, _) => (0 <? count, [c])
      | (inl _, c, _) => (false, [c])
      end
  end.

(** A command that prints [m] and raises [e] outside any unit of work. *)
Definition stop {A} (probe : list conn) (file : option database)
           (m : message) (e : exn) : run A :=
  mkRun (inl e) [m] probe file.

(** [with get_db_cursor() as (conn, cursor): body] inside a command that has
    already opened the connections [probe].  Without a database file SQLite
    would create an empty one and the first statement would fail for want of
    its table; no command gets there, [check_database_exists] comes first. *)
Definition transaction {A} (probe : list conn) (file : option database)
           (body : M A) : run A :=
  match file with
  | Some d =>
      match get_db_cursor body d [] with
      | (r, c, console) => mkRun r console (probe ++ [c]) (Some (committed c))
      end
  | None => mkRun (inl OperationalError) [] probe None
  end.

(** ** cli.py: create_reservation *)

Record reservation_request := mkReservationRequest {
  rq_customer_id : Z;
  rq_table_id : Z;
  rq_date : date;
  rq_time : time;
  rq_party_size : Z;
  rq_notes : option string }.

(** The panel shown for a new reservation. *)
Record reservation_panel := mkReservationPanel {
  np_reservation_id : Z;
  np_customer : string;
  np_table : string;
  np_date : string;
  np_time : string;
  np_party_size : Z }.

(** SELECT ... FROM customers WHERE customer_id = ?, [fetchone]. *)
Definition select_customer (customer_id : Z) : M (option customer) :=
  query (SELECT Customers)
        (fun d => find (fun r => cu_customer_id r =? customer_id) (customers d)).

(** SELECT ... FROM tables WHERE table_id = ?, [fetchone]. *)
Definition select_table (table_id : Z) : M (option dining_table) :=
  query (SELECT Tables)
        (fun d => find (fun r => tb_table_id r =? table_id) (tables d)).

(** The WHERE clause of the conflict query, cli.py:205-210:
<<
    table_id = ? AND reservation_date = ?
    AND reservation_time BETWEEN time(?, '-1 hour') AND time(?, '+1 hour')
    AND status IN ('Confirmed', 'Seated')
>>
*)
Definition conflict_where (table_id : Z) (date_str : string) (t : time)
           (r : reservation) : bool :=
  (rs_table_id r =? table_id)
  && (rs_reservation_date r =? date_str)%string
  && between (rs_reservation_time r) (sqlite_time t (-1)) (sqlite_time t 1)
  && text_in (rs_status r) ["Confirmed"; "Seated"].

Definition select_conflict (table_id : Z) (date_str : string) (t : time)
  : M (option Z) :=
  query (SELECT Reservations)
        (fun d => option_map rs_reservation_id
                    (find (conflict_where table_id date_str t) (reservations d))).

(** INSERT INTO reservations (customer_id, table_id, reservation_date,
    reservation_time, party_size, special_requests), cli.py:217-223; the
    status is the default of the schema, the result is [cursor.lastrowid]. *)
Definition insert_reservation (customer_id table_id : Z)
           (date_str time_str : string) (party_size : Z) (notes : option string)
  : M Z :=
  write (INSERT Reservations)
        (fun d => existsb (fun r => cu_customer_id r =? customer_id) (customers d)
                  && existsb (fun r => tb_table_id r =? table_id) (tables d))
        (fun d =>
           let id := next_id rs_reservation_id (reservations d) in
           (with_reservations d
              (reservations d ++
               [mkReservation id customer_id table_id date_str time_str party_size
                              (default_reservation_status (ddl d)) notes]),
            id)).

(** The body of the unit of work of [create_reservation], cli.py:184-223. *)
Definition create_reservation_body (answer : bool) (rq : reservation_request)
  : M reservation_panel :=
  let date_str := isoformat (rq_date rq) in
  let time_str := hhmm (rq_time rq) in
  customer <- select_customer (rq_customer_id rq) ;;
  match customer with
  | None => print (CustomerNotFound (rq_customer_id rq)) ;; raise (Exit 1)
  | Some cu =>
      table_info <- select_table (rq_table_id rq) ;;
      match table_info with
      | None => print (TableNotFound (rq_table_id rq)) ;; raise (Exit 1)
      | Some tb =>
          (if rq_party_size rq >? tb_capacity tb
           then print (CapacityWarning (rq_party_size rq) (tb_capacity tb)) ;;
                if answer then ret tt else raise (Exit 0)
           else ret tt) ;;
          taken <- select_conflict (rq_table_id rq) date_str (rq_time rq) ;;
          match taken with
          | Some _ => print TableAlreadyReserved ;; raise (Exit 1)
          | None =>
              reservation_id <- insert_reservation (rq_customer_id rq) (rq_table_id rq)
                                  date_str time_str (rq_party_size rq) (rq_notes rq) ;;
              ret (mkReservationPanel reservation_id
                     (cu_first_name cu ++ " " ++ cu_last_name cu)
                     (tb_table_number tb) date_str time_str (rq_party_size rq))
          end
      end
  end.

(** [create_reservation], cli.py:155-233.  [today] is [date.today()],
    [answer] is what the operator answers to "Continue anyway?".  The request
    carries the date and the time that the two [strptime] calls of
    cli.py:169-174 have read. *)
Definition create_reservation (today : date) (answer : bool)
           (rq : reservation_request) (file : option database)
  : run reservation_panel :=
  let (initialized, probe) := check_database_exists file in
  if negb initialized then stop probe file DatabaseNotInitialized (Exit 1)
  else if date_ltb (rq_date rq) today then stop probe file PastDate (Exit 1)
  else if rq_party_size rq <? 1 then stop probe file PartySizeTooSmall (Exit 1)
  else transaction probe file (create_reservation_body answer rq).

(** ** cli.py: list_reservations *)

(** SQL [ORDER BY]: insertion sort under a total preorder [le]. *)
Fixpoint insert_by {A} (le : A -> A -> bool) (x : A) (l : list A) : list A :=
  match l with
  | [] => [x]
  | y :: l' => if le x y then x :: l else y :: insert_by le x l'
  end.

Definition order_by {A} (le : A -> A -> bool) (l : list A) : list A :=
  fold_right (insert_by le) [] l.










(** ** cli.py: add_order_item *)

Record order_item_request := mkOrderItemRequest {
  ir_order_id : Z;
  ir_item_id : Z;
  ir_quantity : Z;
  ir_notes : option string }.

(** The panel shown for an added item. *)
Record item_panel := mkItemPanel {
  ip_item : string;
  ip_quantity : Z;
  ip_unit_price : Q;
  ip_item_total : Q;
  ip_new_total : Q }.

Definition select_order (order_id : Z) : M (option order) :=
  query (SELECT Orders)
        (fun d => find (fun r => od_order_id r =? order_id) (orders d)).

Definition select_menu_item (item_id : Z) : M (option menu_item) :=
  query (SELECT MenuItems)
        (fun d => find (fun r => mi_item_id r =? item_id) (menu_items d)).

(** Subtotal of an order: the sum of quantity x unit_price over its lines. *)
Definition order_subtotal (order_id : Z) (ois : list order_item) : Q :=
  fold_right (fun oi acc =>
                if oi_order_id oi =? order_id
                then (inject_Z (oi_quantity oi) * oi_unit_price oi + acc)%Q
                else acc)
             0%Q ois.

(** Modelled from the spec: the totals that the schema keeps up to date when
    order_items change (spec 4.3): subtotal as above, tax = subtotal x fixed
    rate, total = subtotal + tax + tip. *)
Definition recompute_totals (order_id : Z) (d : database) : database :=
  with_orders d
    (map (fun o =>
            if od_order_id o =? order_id
            then let s := order_subtotal order_id (order_items d) in
                 let tax := (s * tax_rate (ddl d))%Q in
                 mkOrder (od_order_id o) (od_status o) s tax (od_tip o)
                         (s + tax + od_tip o)%Q
            else o)
         (orders d)).

(** INSERT INTO order_items (order_id, item_id, quantity, unit_price,
    special_instructions), cli.py:378-381. *)
Definition insert_order_item (order_id item_id quantity : Z) (unit_price : Q)
           (notes : option string) : M Z :=
  write (INSERT OrderItems)
        (fun d => existsb (fun r => od_order_id r =? order_id) (orders d)
                  && existsb (fun r => mi_item_id r =? item_id) (menu_items d))
        (fun d =>
           let id := next_id oi_order_item_id (order_items d) in
           (recompute_totals order_id
              (with_order_items d
                 (order_items d ++
                  [mkOrderItem id order_id item_id quantity unit_price notes])),
            id)).

(** SELECT total FROM orders WHERE order_id = ?, [fetchone()['total']]. *)
Definition select_total (order_id : Z) : M Q :=
  total <- query (SELECT Orders)
                 (fun d => option_map od_total
                             (find (fun r => od_order_id r =? order_id) (orders d))) ;;
  match total with
  | Some t => ret t
  | None => raise TypeError
  end.

(** The body of the unit of work of [add_order_item], cli.py:350-385. *)
Definition add_order_item_body (answer : bool) (rq : order_item_request)
  : M item_panel :=
  order <- select_order (ir_order_id rq) ;;
  match order with
  | None => print (OrderNotFound (ir_order_id rq)) ;; raise (Exit 1)
  | Some o =>
      if text_in (od_status o) ["Completed"; "Cancelled"]
      then print (CannotModifyOrder (od_status o)) ;; raise (Exit 1)
      else
        item <- select_menu_item (ir_item_id rq) ;;
        match item with
        | None => print (MenuItemNotFound (ir_item_id rq)) ;; raise (Exit 1)
        | Some it =>
            (if mi_is_available it =? 0
             then print (ItemUnavailable (mi_name it)) ;;
                  if answer then ret tt else raise (Exit 0)
             else ret tt) ;;
            insert_order_item (ir_order_id rq) (ir_item_id rq) (ir_quantity rq)
                              (mi_price it) (ir_notes rq) ;;
            new_total <- select_total (ir_order_id rq) ;;
            ret (mkItemPanel (mi_name it) (ir_quantity rq) (mi_price it)
                             (mi_price it * inject_Z (ir_quantity rq))%Q new_total)
        end
  end.

(** [add_order_item], cli.py:334-395; [answer] is what the operator answers
    to "Add anyway?". *)
Definition add_order_item (answer : bool) (rq : order_item_request)
           (file : option database) : run item_panel :=
  let (initialized, probe) := check_database_exists file in
  if negb initialized then stop probe file DatabaseNotInitialized (Exit 1)
  else if ir_quantity rq <? 1 then stop probe file QuantityTooSmall (Exit 1)
  else transaction probe file (add_order_item_body answer rq).

(** ** cli.py: add_menu_item *)

(** The price is a number: of the floats that typer reads, NaN and the
    infinities are left out. *)
Record menu_item_request := mkMenuItemRequest {
  mr_name : string;
  mr_price : Q;
  mr_category_id : Z;
  mr_description : option string }.

(** The panel shown for a new menu item. *)
Record menu_panel := mkMenuPanel {
  mp_item_id : Z;
  mp_name : string;
  mp_category : string;
  mp_price : Q }.

Definition select_category (category_id : Z) : M (option category) :=
  query (SELECT Categories)
        (fun d => find (fun r => ct_category_id r =? category_id) (categories d)).

(** SELECT category_id, name FROM categories ORDER BY name, [fetchall]. *)
Definition select_categories : M (list (Z * string)) :=
  query (SELECT Categories)
        (fun d => map (fun r => (ct_category_id r, ct_name r))
                      (order_by (fun a b => String.leb (ct_name a) (ct_name b))
                                (categories d))).

(** INSERT INTO menu_items (name, description, price, category_id),
    cli.py:585-590; availability is the default of the schema. *)
Definition insert_menu_item (name : string) (description : option string)
           (price : Q) (category_id : Z) : M Z :=
  write (INSERT MenuItems)
        (fun d => existsb (fun r => ct_category_id r =? category_id) (categories d))
        (fun d =>
           let id := next_id mi_item_id (menu_items d) in
           (with_menu_items d
              (menu_items d ++
               [mkMenuItem id name description price category_id
                           (default_is_available (ddl d))]),
            id)).

(** The body of the unit of work of [add_menu_item], cli.py:570-590. *)
Definition add_menu_item_body (rq : menu_item_request) : M menu_panel :=
  category <- select_category (mr_category_id rq) ;;
  match category with
  | None =>
      print (CategoryNotFound (mr_category_id rq)) ;;
      cats <- select_categories ;;
      print (AvailableCategories cats) ;;
      raise (Exit 1)
  | Some c =>
      item_id <- insert_menu_item (mr_name rq) (mr_description rq) (mr_price rq)
                                  (mr_category_id rq) ;;
      ret (mkMenuPanel item_id (mr_name rq) (ct_name c) (mr_price rq))
  end.

(** [add_menu_item], cli.py:554-599. *)
Definition add_menu_item (rq : menu_item_request) (file : option database)
  : run menu_panel :=
  let (initialized, probe) := check_database_exists file in
  if negb initialized then stop probe file DatabaseNotInitialized (Exit 1)
  else if Qle_bool (mr_price rq) 0 then stop probe file PriceNotPositive (Exit 1)
  else transaction probe file (add_menu_item_body rq).

(** ** cli.py: update_menu_item *)

Record menu_update_request := mkMenuUpdateRequest {
  ur_item_id : Z;
  ur_price : option Q;
  ur_available : option bool;
  ur_description : option string }.

(** One [column = ?] of the SET clause together with its parameter. *)
Inductive assignment :=
| SetPrice (p : Q)
| SetIsAvailable (v : Z)
| SetDescription (s : string).

Definition assign (r : menu_item) (a : assignment) : menu_item :=
  match a with
  | SetPrice p =>
      mkMenuItem (mi_item_id r) (mi_name r) (mi_description r) p
                 (mi_category_id r) (mi_is_available r)
  | SetIsAvailable v =>
      mkMenuItem (mi_item_id r) (mi_name r) (mi_description r) (mi_price r)
                 (mi_category_id r) v
  | SetDescription s =>
      mkMenuItem (mi_item_id r) (mi_name r) (Some s) (mi_price r)
                 (mi_category_id r) (mi_is_available r)
  end.

(** UPDATE menu_items SET <updates> WHERE item_id = ?, cli.py:645-647. *)
Definition execute_update (item_id : Z) (updates : list assignment) : M unit :=
  write (UPDATE MenuItems) (fun _ => true)
        (fun d =>
           (with_menu_items d
              (map (fun r => if mi_item_id r =? item_id
                             then fold_left assign updates r else r)
                   (menu_items d)),
            tt)).

(** SELECT mi.*, c.name AS category_name FROM menu_items mi JOIN categories c
    ON mi.category_id = c.category_id WHERE mi.item_id = ?, [fetchone]. *)
Definition menu_item_with_category (item_id : Z) (d : database)
  : option (menu_item * string) :=
  hd_error
    (flat_map
       (fun mi =>
          map (fun c => (mi, ct_name c))
              (filter (fun c => ct_category_id c =? mi_category_id mi)
                      (categories d)))
       (filter (fun mi => mi_item_id mi =? item_id) (menu_items d))).

Definition select_updated (item_id : Z) : M (option (menu_item * string)) :=
  query (SELECT MenuItems) (menu_item_with_category item_id).

(** The part of the SET clause for the price, cli.py:630-635. *)
Definition price_update (price : option Q) : M (list assignment) :=
  match price with
  | Some p =>
      if Qle_bool p 0 then print PriceNotPositive ;; raise (Exit 1)
      else ret [SetPrice p]
  | None => ret []
  end.

(** cli.py:637-639. *)
Definition available_update (available : option bool) : list assignment :=
  match available with
  | Some b => [SetIsAvailable (if b then 1 else 0)]
  | None => []
  end.

(** cli.py:641-643. *)
Definition description_update (description : option string) : list assignment :=
  match description with
  | Some s => [SetDescription s]
  | None => []
  end.

(** The body of the unit of work of [update_menu_item], cli.py:618-656. *)
Definition update_menu_item_body (rq : menu_update_request)
  : M (option (menu_item * string)) :=
  item <- select_menu_item (ur_item_id rq) ;;
  match item with
  | None => print (MenuItemNotFound (ur_item_id rq)) ;; raise (Exit 1)
  | Some _ =>
      updates <- price_update (ur_price rq) ;;
      let updates := (updates ++ available_update (ur_available rq))%list in
      let updates := (updates ++ description_update (ur_description rq))%list in
      execute_update (ur_item_id rq) updates ;;
      select_updated (ur_item_id rq)
  end.

Definition no_updates (rq : menu_update_request) : bool :=
  match ur_price rq, ur_available rq, ur_description rq with
  | None, None, None => true
  | _, _, _ => false
  end.

(** [update_menu_item], cli.py:602-666.  The panel is built from the row
    fetched last, after the unit of work has been committed. *)
Definition update_menu_item (rq : menu_update_request) (file : option database)
  : run (menu_item * string) :=
  let (initialized, probe) := check_database_exists file in
  if negb initialized then stop probe file DatabaseNotInitialized (Exit 1)
  else if no_updates rq then stop probe file NoUpdatesSpecified (Exit 1)
  else
    let t := transaction probe file (update_menu_item_body rq) in
    match result t with
    | inl e => mkRun (inl e) (printed t) (connections t) (disk t)
    | inr (Some updated) => mkRun (inr updated) (printed t) (connections t) (disk t)
    | inr None => mkRun (inl TypeError) (printed t) (connections t) (disk t)
    end.

(** ** database.py: init_database and reset_database *)

(** Modelled from the spec: [schema.sql] is not among the sources.  The
    script is taken to create the tables of the schema, empty, on a file that
    does not have them and to leave an initialized file as it is. *)
Definition executescript (c : conn) : conn :=
  mkConn (fk_on c) (committed c) (working c) (statements c ++ [SCRIPT])
         (cursor_open c) (conn_open c).

(** [init_database], database.py:58-90, once the schema file has been read:
<<
    conn = sqlite3.connect(path)
    try:     conn.executescript(schema_sql); conn.commit(); return True
    finally: conn.close()
>>
*)
Definition init_database (s : schema) (file : option database) : run bool :=
  let conn0 := sqlite3_connect (match file with
                                | Some d => d
                                | None => empty_database s
                                end) in
  let conn1 := close (commit (executescript conn0)) in
  mkRun (inr true) [] [conn1] (Some (committed conn1)).

(** [reset_database], database.py:148-164: the file is removed, then
    initialized again. *)
Definition reset_database (s : schema) (file : option database) : run bool :=
  init_database s None.

(** ** cli.py: view_menu *)















(** ** cli.py: view_available_tables *)

(** Modelled from the spec: [schema.sql] is not among the sources.  A table
    has, besides its identity, number and capacity, a location and an active
    flag (spec 3).  The record [dining_table] leaves these two columns out;
    they are given here row by row. *)
Record table_columns := mkTableColumns {
  tb_location : dining_table -> string;
  tb_is_active : dining_table -> Z }.

(** A row of the availability query: [t.table_id, t.table_number,
    t.capacity, t.location]. *)
Record available_row := mkAvailableRow {
  av_table_id : Z;
  av_table_number : string;
  av_capacity : Z;
  av_location : string }.

(** The WHERE clause of the subquery, cli.py:127-131:
<<
    r.reservation_date = ?
    AND r.reservation_time BETWEEN time(?, '-1 hour') AND time(?, '+1 hour')
    AND r.status IN ('Confirmed', 'Seated')
>>
*)
Definition reserved_where (date_str : string) (t : time) (r : reservation) : bool :=
  (rs_reservation_date r =? date_str)%string
  && between (rs_reservation_time r) (sqlite_time t (-1)) (sqlite_time t 1)
  && text_in (rs_status r) ["Confirmed"; "Seated"].

(** SELECT r.table_id FROM reservations r WHERE ... *)
Definition reserved_table_ids (date_str : string) (t : time) (d : database)
  : list Z :=
  map rs_table_id (filter (reserved_where date_str t) (reservations d)).

(** t.is_active = 1 AND t.table_id NOT IN (subquery). *)
Definition available_where (cols : table_columns) (date_str : string) (t : time)
           (d : database) (tb : dining_table) : bool :=
  (tb_is_active cols tb =? 1)
  && negb (existsb (Z.eqb (tb_table_id tb)) (reserved_table_ids date_str t d)).

(** ORDER BY t.location, t.capacity. *)
Definition location_capacity_le (a b : available_row) : bool :=
  String.ltb (av_location a) (av_location b)
  || ((av_location a =? av_location b)%string && (av_capacity a <=? av_capacity b)).

Definition available_row_of (cols : table_columns) (tb : dining_table)
  : available_row :=
  mkAvailableRow (tb_table_id tb) (tb_table_number tb) (tb_capacity tb)
                 (tb_location cols tb).

(** The query of [view_available_tables], cli.py:122-134. *)
Definition available_query (cols : table_columns) (date_str : string) (t : time)
           (d : database) : list available_row :=
  order_by location_capacity_le
           (map (available_row_of cols)
                (filter (available_where cols date_str t d) (tables d))).

(** A line of the printed table: number, capacity, location. *)
Record table_line := mkTableLine {
  tl_table_number : string;
  tl_capacity : Z;
  tl_location : string }.

Definition table_line_of (r : available_row) : table_line :=
  mkTableLine (av_table_number r) (av_capacity r) (av_location r).

(** What [view_available_tables] shows: the message that no table is
    available for the date and the time, or the table titled with them. *)
Inductive tables_output :=
| NoTablesAvailable (date_str time_str : string)
| AvailableTables (date_str time_str : string) (lines : list table_line).

(** [view_available_tables], cli.py:104-152, from the point where the two
    [strptime] calls of cli.py:114-120 have accepted the date and the time,
    for texts in the zero-padded forms YYYY-MM-DD and HH:MM. *)
Definition view_available_tables (cols : table_columns) (dt : date) (t : time)
           (file : option database) : run tables_output :=
  let date_str := isoformat dt in
  let time_str := hhmm t in
  let (initialized, probe) := check_database_exists file in
  if negb initialized then stop probe file DatabaseNotInitialized (Exit 1)
  else
    let q := transaction probe file
               (query (SELECT Tables) (available_query cols date_str t)) in
    match result q with
    | inl e => mkRun (inl e) (printed q) (connections q) (disk q)
    | inr [] => mkRun (inr (NoTablesAvailable date_str time_str))
                      (printed q) (connections q) (disk q)
    | inr results =>
        mkRun (inr (AvailableTables date_str time_str (map table_line_of results)))
              (printed q) (connections q) (disk q)
    end.

(** ** Vocabulary of the properties *)

(** The connection that [check_database_exists] leaves behind on an
    initialized database [d]: foreign keys on, one read of [sqlite_master],
    nothing changed, everything closed. *)
Definition probe_of (d : database) : conn :=
  mkConn true d d [PRAGMA_foreign_keys_ON; SELECT SqliteMaster] false false.

(** A connection that was asked no INSERT, UPDATE or script. *)
Definition read_only (c : conn) : Prop :=
  existsb is_write (statements c) = false.

(** A connection whose cursor and which itself are closed, with nothing
    pending. *)
Definition released (c : conn) : Prop :=
  cursor_open c = false /\ conn_open c = false /\ working c = committed c.

(** A run that failed without touching the database [d]. *)
Definition untouched {A} (r : run A) (d : database) : Prop :=
  disk r = Some d /\ Forall read_only (connections r).

Definition minute_of_day (t : time) : Z :=
  Z.of_nat (hour t) * 60 + Z.of_nat (minute t).

(** The conflict rule in the words of the spec (4.2): an existing
    reservation of the same table and date, Confirmed or Seated, whose time
    is at most 60 minutes away from the requested one. *)
Definition slot_conflict (rq : reservation_request) (r : reservation) : Prop :=
  rs_table_id r = rq_table_id rq
  /\ rs_reservation_date r = isoformat (rq_date rq)
  /\ (rs_status r = "Confirmed" \/ rs_status r = "Seated")
  /\ exists t, rs_reservation_time r = hhmm t
               /\ Z.abs (minute_of_day t - minute_of_day (rq_time rq)) <= 60.

(** The preconditions of [create_reservation] in the order of the spec
    (4.2, a to f), and what the first one that fails leads to.  For (e) the
    operator who declines the warning ends the command; for (f) the test is
    the conflict query of the code. *)
Inductive verdict :=
| InvalidDate
| InvalidPartySize
| NotFoundCustomer
| NotFoundTable
| OverCapacityDeclined
| SlotConflict
| Inserted.

(** The warning of precondition (e), when it applies. *)
Definition capacity_warning (rq : reservation_request) (d : database)
  : list message :=
  match find (fun r => tb_table_id r =? rq_table_id rq) (tables d) with
  | Some tb =>
      if rq_party_size rq >? tb_capacity tb
      then [CapacityWarning (rq_party_size rq) (tb_capacity tb)]
      else []
  | None => []
  end.

Definition reservation_verdict (today : date) (answer : bool)
           (rq : reservation_request) (d : database) : verdict :=
  if date_ltb (rq_date rq) today then InvalidDate
  else if rq_party_size rq <? 1 then InvalidPartySize
  else if negb (existsb (fun r => cu_customer_id r =? rq_customer_id rq) (customers d))
  then NotFoundCustomer
  else match find (fun r => tb_table_id r =? rq_table_id rq) (tables d) with
       | None => NotFoundTable
       | Some tb =>
           if (rq_party_size rq >? tb_capacity tb) && negb answer
           then OverCapacityDeclined
           else if existsb (conflict_where (rq_table_id rq) (isoformat (rq_date rq))
                                           (rq_time rq))
                           (reservations d)
           then SlotConflict
           else Inserted
       end.

(** The row that a successful [create_reservation] adds. *)
Definition new_reservation (rq : reservation_request) (d : database) : reservation :=
  mkReservation (next_id rs_reservation_id (reservations d))
                (rq_customer_id rq) (rq_table_id rq)
                (isoformat (rq_date rq)) (hhmm (rq_time rq))
                (rq_party_size rq) (default_reservation_status (ddl d))
                (rq_notes rq).

(** The SET clause that [update_menu_item] builds for a request. *)
Definition updates_of (rq : menu_update_request) : list assignment :=
  ((match ur_price rq with Some p => [SetPrice p] | None => [] end)
     ++ available_update (ur_available rq)
     ++ description_update (ur_description rq))%list.

(** The row [r] with exactly the supplied fields of [rq] replaced. *)
Definition patched (rq : menu_update_request) (r : menu_item) : menu_item :=
  mkMenuItem (mi_item_id r) (mi_name r)
             (match ur_description rq with Some s => Some s | None => mi_description r end)
             (match ur_price rq with Some p => p | None => mi_price r end)
             (mi_category_id r)
             (match ur_available rq with
              | Some b => if b then 1 else 0
              | None => mi_is_available r
              end).

(** A price was supplied and is not above 0. *)
Definition nonpositive (price : option Q) : bool :=
  match price with
  | Some p => Qle_bool p 0
  | None => false
  end.

(** The menu_items table after the UPDATE of [rq]. *)
Definition patched_menu (rq : menu_update_request) (d : database) : list menu_item :=
  map (fun m => if mi_item_id m =? ur_item_id rq then patched rq m else m)
      (menu_items d).

(** The file after a series of [update_menu_item] commands. *)
Definition after_updates (rqs : list menu_update_request) (file : option database)
  : option database :=
  fold_left (fun f rq => disk (update_menu_item rq f)) rqs file.

(** The order line that a successful [add_order_item] adds for the menu item
    [it]. *)
Definition new_order_item (rq : order_item_request) (it : menu_item) (d : database)
  : order_item :=
  mkOrderItem (next_id oi_order_item_id (order_items d))
              (ir_order_id rq) (ir_item_id rq) (ir_quantity rq)
              (mi_price it) (ir_notes rq).



(** A time of day that [strptime] can have read. *)
Definition valid_time (t : time) : Prop :=
  (hour t < 24)%nat /\ (minute t < 60)%nat.

(** The text [HH:MM:00] that SQLite's [time()] renders. *)
Definition hhmmss (h m : nat) : string :=
  two_digits h ++ ":" ++ two_digits m ++ ":00".

(** The connection of a unit of work on [d] as [get_db_cursor] leaves it:
    foreign keys on, the statements [stmts] run after the pragma, the file
    now [d'], everything closed. *)
Definition unit_of (d' : database) (stmts : list stmt) : conn :=
  mkConn true d' d' (PRAGMA_foreign_keys_ON :: stmts) false false.

(** The panel of a new reservation. *)
Definition panel_of (rq : reservation_request) (d : database) : reservation_panel :=
  mkReservationPanel
    (next_id rs_reservation_id (reservations d))
    (match find (fun r => cu_customer_id r =? rq_customer_id rq) (customers d) with
     | Some cu => cu_first_name cu ++ " " ++ cu_last_name cu
     | None => ""
     end)
    (match find (fun r => tb_table_id r =? rq_table_id rq) (tables d) with
     | Some tb => tb_table_number tb
     | None => ""
     end)
    (isoformat (rq_date rq)) (hhmm (rq_time rq)) (rq_party_size rq).

(** The database after the reservation of [rq] has been added. *)
Definition reserved (rq : reservation_request) (d : database) : database :=
  with_reservations d (reservations d ++ [new_reservation rq d]).

(** A program of a unit of work that leaves the foreign-key setting of its
    connection as it found it. *)
Definition keeps_foreign_keys {A} (m : M A) : Prop :=
  forall c, foreign_keys (snd (m c)) = foreign_keys c.

(** A connection as a command should leave it: closed, nothing pending,
    foreign keys enforced. *)
Definition well_kept (c : conn) : Prop :=
  released c /\ fk_on c = true.

(** The database after the order line of [rq] for the menu item [it] has
    been added and the totals of its order brought up to date. *)
Definition ordered (rq : order_item_request) (it : menu_item) (d : database)
  : database :=
  recompute_totals (ir_order_id rq)
    (with_order_items d (order_items d ++ [new_order_item rq it d])).

(** The warning of [add_order_item] for an item that is not available. *)
Definition unavailable_warning (it : menu_item) : list message :=
  if mi_is_available it =? 0 then [ItemUnavailable (mi_name it)] else [].

(** The row that a successful [add_menu_item] adds. *)
Definition new_menu_item (rq : menu_item_request) (d : database) : menu_item :=
  mkMenuItem (next_id mi_item_id (menu_items d)) (mr_name rq) (mr_description rq)
             (mr_price rq) (mr_category_id rq) (default_is_available (ddl d)).

(** The database after the menu item of [rq] has been added. *)
Definition offered (rq : menu_item_request) (d : database) : database :=
  with_menu_items d (menu_items d ++ [new_menu_item rq d]).

(** The database after the UPDATE of [rq]. *)
Definition updated_menu (rq : menu_update_request) (d : database) : database :=
  with_menu_items d (patched_menu rq d).

(** Strictly before, in the byte order of texts. *)
Definition text_lt (a b : string) : Prop := String.compare a b = Lt.

(** The lines that [view_available_tables] has shown. *)
Definition tables_shown (o : tables_output) : list table_line :=
  match o with
  | NoTablesAvailable _ _ => []
  | AvailableTables _ _ lines => lines
  end.

(** The line of a table of the database. *)
Definition line_of_table (cols : table_columns) (tb : dining_table) : table_line :=
  mkTableLine (tb_table_number tb) (tb_capacity tb) (tb_location cols tb).

(** Location, then capacity, ascending, on printed lines. *)
Definition location_capacity_order (a b : table_line) : Prop :=
  text_lt (tl_location a) (tl_location b)
  \/ (tl_location a = tl_location b /\ tl_capacity a <= tl_capacity b).

(** An integer that sqlite3 can bind as a parameter: it fits in 64 bits,
    signed.  For any other Python integer [cursor.execute] raises
    OverflowError; the commands are modelled for identities, sizes and
    quantities in this range. *)
Definition int64 (z : Z) : Prop := - 2 ^ 63 <= z < 2 ^ 63.

(** A text without an opening bracket.  rich reads the brackets in what
    [console.print] is given as markup, and raises on a tag it cannot match;
    a plain text is shown as it is. *)
Definition plain (s : string) : Prop := index 0 "[" s = None.

(** The names of the menu items and of the categories are plain texts. *)
Definition plain_names (d : database) : Prop :=
  Forall (fun m => plain (mi_name m)) (menu_items d)
  /\ Forall (fun c => plain (ct_name c)) (categories d).


Definition leap_year (y : nat) : bool :=
  ((y mod 4 =? 0)%nat && negb (y mod 100 =? 0)%nat) || (y mod 400 =? 0)%nat.

Definition days_in_month (y m : nat) : nat :=
  match m with
  | 2%nat => if leap_year y then 29%nat else 28%nat
  | 4%nat | 6%nat | 9%nat | 11%nat => 30%nat
  | _ => 31%nat
  end.

(** A date that [strptime] can have read. *)
Definition valid_date (d : date) : Prop :=
  (1 <= Z.of_nat (year d) <= 9999) /\ (1 <= month d <= 12)%nat
  /\ (1 <= day d <= days_in_month (year d) (month d))%nat.

(** [typer.Exit], or an error of sqlite3: what a command raises before its
    unit of work is committed. *)
Definition exit_or_database_error (e : exn) : Prop :=
  match e with
  | Exit _ | IntegrityError | OperationalError => True
  | TypeError => False
  end.

(** ** Sample data *)

Definition sample_schema : schema := mkSchema "Confirmed" 1 (8 # 100).

Definition sample_db : database :=
  mkDatabase sample_schema
    [mkCustomer 1 "Ada" "Lovelace"]
    [mkTable 1 "T01" 4]
    [mkReservation 1 1 1 "2025-06-01" "17:00" 2 "Confirmed" None]
    [mkCategory 1 "Mains"]
    [mkMenuItem 1 "Risotto" None (18 # 1) 1 1]
    [mkOrder 1 "Open" 0 0 0 0; mkOrder 2 "Completed" (18 # 1) (144 # 100) 0 (1944 # 100)]
    [mkOrderItem 1 2 1 1 (18 # 1) None].

Definition sample_today : date := mkDate 2025 5 1.

(** Table 1 on 2025-06-01 at [h]:[m], party of two. *)
Definition sample_request (h m : nat) : reservation_request :=
  mkReservationRequest 1 1 (mkDate 2025 6 1) (mkTime h m) 2 None.


(** Every table in the main room and in use. *)
Definition sample_columns : table_columns :=
  mkTableColumns (fun _ => "Main Dining") (fun _ => 1).

Arguments isoformat : simpl never.
Arguments hhmm : simpl never.
Arguments sqlite_time : simpl never.
Arguments conflict_where : simpl never.
Arguments next_id : simpl never.
Arguments date_ltb : simpl never.

(** The references between the tables hold: every reservation has its
    customer and its table, every order line its order and its menu item,
    every menu item its category. *)
Definition references_hold (d : database) : Prop :=
  (forall r, In r (reservations d) ->
     existsb (fun c => cu_customer_id c =? rs_customer_id r) (customers d) = true
     /\ existsb (fun t => tb_table_id t =? rs_table_id r) (tables d) = true)
  /\ (forall l, In l (order_items d) ->
        existsb (fun o => od_order_id o =? oi_order_id l) (orders d) = true
        /\ existsb (fun m => mi_item_id m =? oi_item_id l) (menu_items d) = true)
  /\ (forall m, In m (menu_items d) ->
        existsb (fun c => ct_category_id c =? mi_category_id m) (categories d) = true).

(** A menu item that refers to a category that does not exist. *)
Definition sample_orphan_db : database :=
  with_menu_items sample_db [mkMenuItem 1 "Risotto" None (18 # 1) 7 1].

(** * Properties *)

(** ** The transaction manager *)

Lemma get_connection_foreign_keys (d : database) :
  fk_on (get_connection d) = true /\ committed (get_connection d) = d.
Proof. split; reflexivity. Qed.


(** What [check_database_exists] does on an initialized database. *)
Lemma check_database_exists_initialized (d : database) :
  check_database_exists (Some d) = (true, [probe_of d]).
Proof. reflexivity. Qed.

Lemma check_database_exists_missing :
  check_database_exists None = (false, []).
Proof. reflexivity. Qed.

(** A unit of work that is one read. *)
Lemma transaction_query {A} (probe : list conn) (d : database) (s : stmt)
      (f : database -> A) :
  transaction probe (Some d) (query s f)
  = mkRun (inr (f d)) [] (probe ++ [unit_of d [s]]) (Some d).
Proof. reflexivity. Qed.

Lemma probe_read_only (d : database) : read_only (probe_of d).
Proof. reflexivity. Qed.

Lemma probe_released (d : database) : released (probe_of d).
Proof. repeat split. Qed.

(** Without an initialized database every command stops at once, and opens
    no connection. *)
Lemma commands_need_database (today : date) (answer : bool)
      (rq : reservation_request) (irq : order_item_request)
      (mrq : menu_item_request) (urq : menu_update_request) :
  create_reservation today answer rq None
  = mkRun (inl (Exit 1)) [DatabaseNotInitialized] [] None
  /\ add_order_item answer irq None
     = mkRun (inl (Exit 1)) [DatabaseNotInitialized] [] None
  /\ add_menu_item mrq None
     = mkRun (inl (Exit 1)) [DatabaseNotInitialized] [] None
  /\ update_menu_item urq None
     = mkRun (inl (Exit 1)) [DatabaseNotInitialized] [] None.
Proof. repeat split. Qed.

(** ** Foreign keys *)

(** C8. The connection that [init_database] opens runs the schema script
    with foreign keys off: it comes from [sqlite3.connect] directly, not
    from [get_connection]. *)
Theorem init_database_foreign_keys_off (s : schema) (file : option database) :
  exists c, connections (init_database s file) = [c]
            /\ fk_on c = false
            /\ In SCRIPT (statements c).
Proof.
  eexists; repeat split; cbn; auto.
Qed.

Lemma reset_database_foreign_keys_off (s : schema) (file : option database) :
  Forall (fun c => fk_on c = false) (connections (reset_database s file)).
Proof. repeat constructor. Qed.

(** ** Lookups *)

Lemma existsb_find {A : Type} (f : A -> bool) (l : list A) :
  existsb f l = match find f l with Some _ => true | None => false end.
Proof.
  induction l as [| a l IH]; cbn; [reflexivity |].
  destruct (f a); cbn; auto.
Qed.

Lemma find_existsb {A : Type} (f : A -> bool) (l : list A) (x : A) :
  find f l = Some x -> existsb f l = true.
Proof. intros H; rewrite existsb_find, H; reflexivity. Qed.

(** Unfolds the monad and the statements of a unit of work. *)
Ltac unfold_unit :=
  cbv [transaction get_db_cursor stop bind ret raise print query write
       select_customer select_table select_conflict insert_reservation
       select_order select_menu_item insert_order_item select_total
       select_category select_categories insert_menu_item
       execute_update select_updated price_update
       enter leave get_connection sqlite3_connect execute_pragma_foreign_keys
       cursor commit rollback cursor_close close].

(** ** create_reservation *)

(** X17. On an initialized database, for a date and a time given in the
    zero-padded forms YYYY-MM-DD and HH:MM and for identities and a party
    size that fit in 64 bits, [create_reservation] decides in this order:
    past date, party size below 1, unknown customer, unknown table, capacity
    (a warning the operator may override), and the conflict query of
    cli.py:205-210, [conflict_where].  The first test that fails decides what
    is printed and raised; a run that fails has asked for no write and
    leaves the database as it was; a run that passes them all asks for its
    INSERT after its three reads and commits the new row. *)
Theorem create_reservation_cascade (today : date) (answer : bool)
        (rq : reservation_request) (d : database) :
  valid_date (rq_date rq) -> valid_time (rq_time rq) ->
  int64 (rq_customer_id rq) -> int64 (rq_table_id rq) ->
  int64 (rq_party_size rq) ->
  let r := create_reservation today answer rq (Some d) in
  match reservation_verdict today answer rq d with
  | InvalidDate =>
      result r = inl (Exit 1) /\ printed r = [PastDate] /\ untouched r d
  | InvalidPartySize =>
      result r = inl (Exit 1) /\ printed r = [PartySizeTooSmall] /\ untouched r d
  | NotFoundCustomer =>
      result r = inl (Exit 1)
      /\ printed r = [CustomerNotFound (rq_customer_id rq)] /\ untouched r d
  | NotFoundTable =>
      result r = inl (Exit 1)
      /\ printed r = [TableNotFound (rq_table_id rq)] /\ untouched r d
  | OverCapacityDeclined =>
      result r = inl (Exit 0)
      /\ printed r = capacity_warning rq d /\ untouched r d
  | SlotConflict =>
      result r = inl (Exit 1)
      /\ printed r = (capacity_warning rq d ++ [TableAlreadyReserved])%list
      /\ untouched r d
  | Inserted =>
      exists c,
        printed r = capacity_warning rq d
        /\ connections r = [probe_of d; c]
        /\ statements c = [PRAGMA_foreign_keys_ON; SELECT Customers; SELECT Tables;
                           SELECT Reservations; INSERT Reservations]
        /\ disk r = Some (with_reservations d (reservations d ++ [new_reservation rq d]))
  end.
Proof.
  intros _ _ _ _ _; cbv zeta.
  unfold create_reservation, reservation_verdict, capacity_warning, untouched.
  rewrite check_database_exists_initialized; cbn [negb].
  destruct (date_ltb (rq_date rq) today).
  { cbn; repeat split; repeat constructor. }
  destruct (rq_party_size rq <? 1).
  { cbn; repeat split; repeat constructor. }
  rewrite !existsb_find.
  unfold create_reservation_body; unfold_unit.
  cbn -[find].
  destruct (find _ (customers d)) as [cu |] eqn:Hcu; cbn -[find].
  2: { repeat split; repeat constructor. }
  destruct (find _ (tables d)) as [tb |] eqn:Htb; cbn -[find].
  2: { repeat split; repeat constructor. }
  destruct (rq_party_size rq >? tb_capacity tb), answer; cbn -[find].
  all: try (destruct (find _ (reservations d)) as [res |] eqn:Hres; cbn -[find]).
  all: try rewrite (find_existsb _ _ _ Hcu), (find_existsb _ _ _ Htb); cbn -[find].
  all: try (repeat split; repeat constructor; fail).
  all: eexists; repeat split.
Qed.

Lemma create_reservation_cascade_witness :
  let rq := sample_request 19 10 in
  let r := create_reservation sample_today true rq (Some sample_db) in
  exists c,
    printed r = capacity_warning rq sample_db
    /\ connections r = [probe_of sample_db; c]
    /\ statements c = [PRAGMA_foreign_keys_ON; SELECT Customers; SELECT Tables;
                       SELECT Reservations; INSERT Reservations]
    /\ disk r = Some (with_reservations sample_db
                        (reservations sample_db ++ [new_reservation rq sample_db])).
Proof.
  apply (create_reservation_cascade sample_today true (sample_request 19 10)
                                    sample_db).
  - repeat split; cbn; lia.
  - split; cbn; lia.
  - split; [vm_compute; discriminate | reflexivity].
  - split; [vm_compute; discriminate | reflexivity].
  - split; [vm_compute; discriminate | reflexivity].
Defined.

(** The scenario of the spec: a Confirmed reservation of table 1 at 18:00
    blocks a request for 18:45 and lets one for 19:10 through. *)
Example scenario_18_00_blocks_18_45 :
  reservation_verdict sample_today true (sample_request 18 45)
    (with_reservations sample_db
       [mkReservation 1 1 1 "2025-06-01" "18:00" 2 "Confirmed" None])
  = SlotConflict.
Proof. reflexivity. Qed.

Example scenario_18_00_admits_19_10 :
  reservation_verdict sample_today true (sample_request 19 10)
    (with_reservations sample_db
       [mkReservation 1 1 1 "2025-06-01" "18:00" 2 "Confirmed" None])
  = Inserted.
Proof. reflexivity. Qed.

(** C1. Table 1 holds a Confirmed reservation at 17:00; a request for the
    same table and date at 18:00 is 60 minutes away, a slot conflict in the
    words of the spec, yet [create_reservation] inserts it: the lower bound
    of the window is the text 17:00:00, and the stored text 17:00 sorts
    before it. *)
Theorem create_reservation_misses_conflict_one_hour_before :
  let rq := sample_request 18 0 in
  let r := create_reservation sample_today true rq (Some sample_db) in
  (exists row, In row (reservations sample_db) /\ slot_conflict rq row)
  /\ sqlite_time (rq_time rq) (-1) = "17:00:00"
  /\ String.leb "17:00:00" "17:00" = false
  /\ (exists panel, result r = inr panel)
  /\ option_map reservations (disk r)
     = Some [mkReservation 1 1 1 "2025-06-01" "17:00" 2 "Confirmed" None;
             mkReservation 2 1 1 "2025-06-01" "18:00" 2 "Confirmed" None].
Proof.
  cbv zeta; repeat split.
  - eexists; split; [left; reflexivity |].
    repeat split; [left; reflexivity |].
    exists (mkTime 17 0); split; [reflexivity | vm_compute; discriminate].
  - eexists; vm_compute; reflexivity.
Qed.

(** C5. Table 1 holds a Confirmed reservation at 23:30.  A request for the
    same table, the same date and the same time of day passes the
    preconditions (a) to (e): the date is not past, the party is of two, the
    customer and the table exist, the table seats four.  It meets a
    time-window conflict, precondition (f), yet [create_reservation] reports
    no conflict and inserts a second reservation of the slot: the bounds of
    the window are the texts 22:30:00 and 00:30:00, and no text lies between
    them. *)
Theorem create_reservation_books_a_taken_slot :
  let d := with_reservations sample_db
             [mkReservation 1 1 1 "2025-06-01" "23:30" 2 "Confirmed" None] in
  let rq := sample_request 23 30 in
  let r := create_reservation sample_today true rq (Some d) in
  date_ltb (rq_date rq) sample_today = false
  /\ 1 <= rq_party_size rq
  /\ (exists cu, In cu (customers d) /\ cu_customer_id cu = rq_customer_id rq)
  /\ (exists tb, In tb (tables d) /\ tb_table_id tb = rq_table_id rq
                 /\ rq_party_size rq <= tb_capacity tb)
  /\ (exists row, In row (reservations d) /\ slot_conflict rq row)
  /\ sqlite_time (rq_time rq) (-1) = "22:30:00"
  /\ sqlite_time (rq_time rq) 1 = "00:30:00"
  /\ (exists panel, result r = inr panel)
  /\ printed r = []
  /\ option_map reservations (disk r)
     = Some [mkReservation 1 1 1 "2025-06-01" "23:30" 2 "Confirmed" None;
             mkReservation 2 1 1 "2025-06-01" "23:30" 2 "Confirmed" None].
Proof.
  cbv zeta; repeat split.
  - vm_compute; discriminate.
  - eexists; split; [left; reflexivity | reflexivity].
  - eexists; split; [left; reflexivity |]; split; [reflexivity |].
    vm_compute; discriminate.
  - eexists; split; [left; reflexivity |].
    repeat split; [left; reflexivity |].
    exists (mkTime 23 30); split; [reflexivity | vm_compute; discriminate].
  - eexists; vm_compute; reflexivity.
Qed.

(** The same window around midnight: the bounds of a request for 00:30 are
    23:30:00 and 01:30:00, no text lies between them, and a second
    reservation of the very same slot is inserted. *)
Lemma create_reservation_misses_conflict_around_midnight :
  let d := with_reservations sample_db
             [mkReservation 1 1 1 "2025-06-01" "00:30" 2 "Confirmed" None] in
  reservation_verdict sample_today true (sample_request 0 30) d = Inserted
  /\ sqlite_time (mkTime 0 30) (-1) = "23:30:00"
  /\ sqlite_time (mkTime 0 30) 1 = "01:30:00".
Proof. repeat split. Qed.

(** ** add_order_item *)

(** C7 as stated fails: before the quantity is looked at,
    [check_database_exists] has opened a connection and run a statement. *)
Lemma add_order_item_quantity_check_after_probe :
  let r := add_order_item true (mkOrderItemRequest 1 1 0 None) (Some sample_db) in
  printed r = [QuantityTooSmall]
  /\ connections r <> []
  /\ (exists c, In c (connections r) /\ In (SELECT SqliteMaster) (statements c)).
Proof.
  cbv zeta; repeat split.
  - vm_compute; discriminate.
  - exists (probe_of sample_db); split; [left; reflexivity | right; left; reflexivity].
Qed.

(** C7. On an initialized database a request with quantity below 1 prints
    the quantity message and exits with code 1; the only connection opened
    is the one of [check_database_exists], whose statements are the pragma
    of [get_connection] and the read of [sqlite_master]; no unit of work is
    started and the database is what it was. *)
Theorem add_order_item_quantity_below_one (answer : bool)
        (rq : order_item_request) (d : database) :
  ir_quantity rq < 1 ->
  let r := add_order_item answer rq (Some d) in
  result r = inl (Exit 1)
  /\ printed r = [QuantityTooSmall]
  /\ connections r = [probe_of d]
  /\ untouched r d.
Proof.
  intros Hq; cbv zeta; unfold add_order_item, untouched.
  rewrite check_database_exists_initialized; cbn [negb].
  apply Z.ltb_lt in Hq; rewrite Hq; cbn.
  repeat split; repeat constructor.
Qed.

Lemma add_order_item_quantity_below_one_witness :
  let r := add_order_item true (mkOrderItemRequest 1 1 0 None) (Some sample_db) in
  result r = inl (Exit 1)
  /\ printed r = [QuantityTooSmall]
  /\ connections r = [probe_of sample_db]
  /\ untouched r sample_db.
Proof.
  apply (add_order_item_quantity_below_one true (mkOrderItemRequest 1 1 0 None)
                                           sample_db).
  cbn; lia.
Defined.

(** C3 as stated fails: for a closed order and a quantity below 1 the error
    is the one of the quantity, which is checked first. *)
Lemma add_order_item_closed_order_quantity_first :
  let rq := mkOrderItemRequest 2 1 0 None in
  let r := add_order_item true rq (Some sample_db) in
  option_map od_status
    (find (fun o => od_order_id o =? ir_order_id rq) (orders sample_db))
  = Some "Completed"
  /\ printed r = [QuantityTooSmall]
  /\ printed r <> [CannotModifyOrder "Completed"].
Proof. cbv zeta; repeat split; vm_compute; discriminate. Qed.

(** C3. With a quantity of at least 1, a request for an existing order that
    is Completed or Cancelled prints that the order cannot be modified and
    exits with code 1; no connection was asked for a write and the database,
    order_items included, is what it was. *)
Theorem add_order_item_closed_order (answer : bool) (rq : order_item_request)
        (d : database) (o : order) :
  1 <= ir_quantity rq ->
  find (fun r => od_order_id r =? ir_order_id rq) (orders d) = Some o ->
  od_status o = "Completed" \/ od_status o = "Cancelled" ->
  let r := add_order_item answer rq (Some d) in
  result r = inl (Exit 1)
  /\ printed r = [CannotModifyOrder (od_status o)]
  /\ untouched r d
  /\ option_map order_items (disk r) = Some (order_items d).
Proof.
  intros Hq Ho Hs; cbv zeta; unfold add_order_item, untouched.
  rewrite check_database_exists_initialized; cbn [negb].
  replace (ir_quantity rq <? 1) with false by (symmetry; apply Z.ltb_ge; lia).
  unfold add_order_item_body; unfold_unit; cbn -[find text_in].
  rewrite Ho.
  replace (text_in (od_status o) ["Completed"; "Cancelled"]) with true
    by (destruct Hs as [-> | ->]; reflexivity).
  cbn; repeat split; repeat constructor.
Qed.

Lemma add_order_item_closed_order_witness :
  let r := add_order_item true (mkOrderItemRequest 2 1 1 None) (Some sample_db) in
  result r = inl (Exit 1)
  /\ printed r = [CannotModifyOrder "Completed"]
  /\ untouched r sample_db
  /\ option_map order_items (disk r) = Some (order_items sample_db).
Proof.
  apply (add_order_item_closed_order true (mkOrderItemRequest 2 1 1 None) sample_db
           (mkOrder 2 "Completed" (18 # 1) (144 # 100) 0 (1944 # 100))).
  - cbn; lia.
  - reflexivity.
  - left; reflexivity.
Defined.

(** What a successful [add_order_item] has done: one line added, at the
    price the menu showed at that moment. *)
Lemma add_order_item_success (answer : bool) (rq : order_item_request)
      (d : database) (panel : item_panel) :
  result (add_order_item answer rq (Some d)) = inr panel ->
  exists it d1,
    find (fun m => mi_item_id m =? ir_item_id rq) (menu_items d) = Some it
    /\ disk (add_order_item answer rq (Some d)) = Some d1
    /\ order_items d1 = (order_items d ++ [new_order_item rq it d])%list
    /\ ip_unit_price panel = mi_price it.
Proof.
  unfold add_order_item.
  rewrite check_database_exists_initialized; cbn [negb].
  destruct (ir_quantity rq <? 1); [discriminate |].
  unfold add_order_item_body; unfold_unit; cbn -[find text_in].
  destruct (find _ (orders d)) as [o |] eqn:Ho; cbn -[find text_in];
    [| discriminate].
  destruct (text_in _ _); cbn -[find]; [discriminate |].
  destruct (find _ (menu_items d)) as [it |] eqn:Hit; cbn -[find];
    [| discriminate].
  destruct (mi_is_available it =? 0), answer; cbn -[find existsb];
    try discriminate.
  all: rewrite (find_existsb _ _ _ Ho), (find_existsb _ _ _ Hit); cbn -[find].
  all: match goal with
       | |- context [find ?f ?l] =>
           destruct (find f l) as [o' |]; cbn; [| discriminate]
       end.
  all: intros H; injection H as <-; exists it; eexists; repeat split.
Qed.

(** ** update_menu_item *)

(** The SET clause built from a request replaces the supplied fields and no
    other. *)
Lemma fold_left_assign_patched (rq : menu_update_request) (r : menu_item) :
  fold_left assign (updates_of rq) r = patched rq r.
Proof.
  unfold updates_of, patched, available_update, description_update.
  destruct (ur_price rq), (ur_available rq), (ur_description rq), r; reflexivity.
Qed.

Lemma find_hd_filter {A : Type} (f : A -> bool) (l : list A) :
  find f l = hd_error (filter f l).
Proof.
  induction l as [| a l IH]; cbn; [reflexivity |].
  destruct (f a); cbn; auto.
Qed.

Lemma filter_patched_menu (rq : menu_update_request) (d : database) :
  filter (fun m => mi_item_id m =? ur_item_id rq) (patched_menu rq d)
  = map (patched rq) (filter (fun m => mi_item_id m =? ur_item_id rq) (menu_items d)).
Proof.
  unfold patched_menu.
  induction (menu_items d) as [| m ms IH]; cbn; [reflexivity |].
  destruct (mi_item_id m =? ur_item_id rq) eqn:E; cbn.
  - rewrite E, IH; reflexivity.
  - rewrite E; exact IH.
Qed.

(** The row fetched after the UPDATE is the patched target, joined with its
    category. *)
Lemma menu_item_with_category_patched (rq : menu_update_request) (d : database)
      (it : menu_item) (c : category) :
  find (fun m => mi_item_id m =? ur_item_id rq) (menu_items d) = Some it ->
  find (fun c => ct_category_id c =? mi_category_id it) (categories d) = Some c ->
  menu_item_with_category (ur_item_id rq) (with_menu_items d (patched_menu rq d))
  = Some (patched rq it, ct_name c).
Proof.
  intros Hit Hc; unfold menu_item_with_category; cbn [menu_items categories with_menu_items].
  rewrite filter_patched_menu.
  rewrite find_hd_filter in Hit; rewrite find_hd_filter in Hc.
  destruct (filter _ (menu_items d)) as [| m ms]; [discriminate |].
  injection Hit as ->; cbn.
  destruct (filter _ (categories d)) as [| c' cs]; [discriminate |].
  injection Hc as ->; reflexivity.
Qed.

(** C6 as stated fails: a price that is not positive is reported only for
    an item that exists; for an unknown item the error is the one of the
    item. *)
Lemma update_menu_item_unknown_item_first :
  let rq := mkMenuUpdateRequest 99 (Some (-1 # 1)) None None in
  let r := update_menu_item rq (Some sample_db) in
  nonpositive (ur_price rq) = true
  /\ printed r = [MenuItemNotFound 99]
  /\ printed r <> [PriceNotPositive].
Proof. cbv zeta; repeat split; vm_compute; discriminate. Qed.

(** C6. On an initialized database whose names of menu items and of
    categories are plain texts, for an item identity that fits in 64 bits
    and a price that is a number, [update_menu_item]
    - without price, availability and description prints that no update
      was specified and exits with code 1;
    - else, for an unknown item, prints that the item was not found and
      exits with code 1;
    - else, for a supplied price that is not above 0, prints the price
      message and exits with code 1;
    in these three cases no write was asked for and the database is what it
    was.  Otherwise the rows of menu_items with the given identity have
    exactly the supplied fields replaced, every other row and table is what
    it was, and the result is the row fetched after the update, which is the
    patched target with the name of its category when that category
    exists. *)
Theorem update_menu_item_partial_update (rq : menu_update_request) (d : database) :
  int64 (ur_item_id rq) ->
  plain_names d ->
  let r := update_menu_item rq (Some d) in
  if no_updates rq
  then result r = inl (Exit 1) /\ printed r = [NoUpdatesSpecified] /\ untouched r d
  else
    match find (fun m => mi_item_id m =? ur_item_id rq) (menu_items d) with
    | None =>
        result r = inl (Exit 1)
        /\ printed r = [MenuItemNotFound (ur_item_id rq)] /\ untouched r d
    | Some it =>
        if nonpositive (ur_price rq)
        then result r = inl (Exit 1) /\ printed r = [PriceNotPositive] /\ untouched r d
        else
          let d' := with_menu_items d (patched_menu rq d) in
          disk r = Some d'
          /\ result r = match menu_item_with_category (ur_item_id rq) d' with
                        | Some updated => inr updated
                        | None => inl TypeError
                        end
          /\ (forall c,
                 find (fun c => ct_category_id c =? mi_category_id it) (categories d)
                 = Some c ->
                 result r = inr (patched rq it, ct_name c))
    end.
Proof.
  intros _ _; cbv zeta; unfold update_menu_item, untouched.
  rewrite check_database_exists_initialized; cbn [negb].
  destruct (no_updates rq) eqn:Hno.
  { cbn; repeat split; repeat constructor. }
  unfold update_menu_item_body; unfold_unit; cbn -[find].
  destruct (find _ (menu_items d)) as [it |] eqn:Hit; cbn -[find].
  2: { repeat split; repeat constructor. }
  assert (Hmap : map (fun r => if mi_item_id r =? ur_item_id rq
                               then fold_left assign
                                      ((match ur_price rq with
                                        | Some p => [SetPrice p]
                                        | None => []
                                        end ++ available_update (ur_available rq))
                                         ++ description_update (ur_description rq)) r
                               else r) (menu_items d)
                 = patched_menu rq d).
  { unfold patched_menu; apply map_ext; intros m.
    rewrite <- fold_left_assign_patched; unfold updates_of.
    rewrite app_assoc; reflexivity. }
  unfold nonpositive.
  destruct (ur_price rq) as [p |] eqn:Hp; cbn -[find].
  - destruct (Qle_bool p 0); cbn -[find].
    + repeat split; repeat constructor.
    + cbn in Hmap; rewrite Hmap.
      destruct (menu_item_with_category _ _) as [u |] eqn:Hj; cbn;
        (split; [reflexivity |]; split; [reflexivity |]; intros c Hc;
         rewrite (menu_item_with_category_patched rq d it c Hit Hc) in Hj;
         congruence).
  - cbn in Hmap; rewrite Hmap.
    destruct (menu_item_with_category _ _) as [u |] eqn:Hj; cbn;
      (split; [reflexivity |]; split; [reflexivity |]; intros c Hc;
       rewrite (menu_item_with_category_patched rq d it c Hit Hc) in Hj;
       congruence).
Qed.

Lemma update_menu_item_partial_update_witness :
  let rq := mkMenuUpdateRequest 1 (Some (20 # 1)) None None in
  result (update_menu_item rq (Some sample_db))
  = inr (mkMenuItem 1 "Risotto" None (20 # 1) 1 1, "Mains")
  /\ option_map menu_items (disk (update_menu_item rq (Some sample_db)))
     = Some [mkMenuItem 1 "Risotto" None (20 # 1) 1 1].
Proof.
  cbv zeta.
  assert (Hid : int64 (ur_item_id (mkMenuUpdateRequest 1 (Some (20 # 1)) None None)))
    by (split; [vm_compute; discriminate | reflexivity]).
  assert (Hpl : plain_names sample_db) by (split; repeat constructor).
  pose proof (update_menu_item_partial_update
                (mkMenuUpdateRequest 1 (Some (20 # 1)) None None) sample_db Hid Hpl)
    as H.
  cbv zeta in H; cbn -[update_menu_item] in H.
  destruct H as (Hdisk & _ & Hres); split.
  - apply (Hres (mkCategory 1 "Mains")); reflexivity.
  - rewrite Hdisk; reflexivity.
Defined.

(** [update_menu_item] writes to menu_items only. *)
Lemma update_menu_item_frame (rq : menu_update_request) (d : database) :
  exists ms, disk (update_menu_item rq (Some d)) = Some (with_menu_items d ms).
Proof.
  assert (Hd : with_menu_items d (menu_items d) = d) by (destruct d; reflexivity).
  unfold update_menu_item.
  rewrite check_database_exists_initialized; cbn [negb].
  destruct (no_updates rq).
  { exists (menu_items d); rewrite Hd; reflexivity. }
  unfold update_menu_item_body; unfold_unit; cbn -[find].
  destruct (find _ (menu_items d)); cbn -[find].
  2: { exists (menu_items d); rewrite Hd; reflexivity. }
  destruct (ur_price rq) as [p |]; cbn -[find];
    [destruct (Qle_bool p 0); cbn -[find] |].
  all: try (exists (menu_items d); rewrite Hd; reflexivity).
  all: match goal with
       | |- context [menu_item_with_category ?i ?d'] =>
           destruct (menu_item_with_category i d')
       end; cbn; eexists; reflexivity.
Qed.

Lemma after_updates_frame (rqs : list menu_update_request) (d : database) :
  exists ms, after_updates rqs (Some d) = Some (with_menu_items d ms).
Proof.
  unfold after_updates.
  revert d; induction rqs as [| rq rqs IH]; intros d; cbn [fold_left].
  - exists (menu_items d); destruct d; reflexivity.
  - destruct (update_menu_item_frame rq d) as [ms ->].
    destruct (IH (with_menu_items d ms)) as [ms' ->].
    exists ms'; reflexivity.
Qed.

(** C4. A successful [add_order_item] adds one order line whose
    unit_price is the price that the menu item has in the database the
    command ran on, and whatever [update_menu_item] commands follow, with
    whatever prices, availabilities or descriptions, the order_items table
    stays as that command left it. *)
Theorem price_snapshot_survives_menu_updates (answer : bool)
        (rq : order_item_request) (d : database) (panel : item_panel) :
  result (add_order_item answer rq (Some d)) = inr panel ->
  exists it d1,
    find (fun m => mi_item_id m =? ir_item_id rq) (menu_items d) = Some it
    /\ disk (add_order_item answer rq (Some d)) = Some d1
    /\ order_items d1 = (order_items d ++ [new_order_item rq it d])%list
    /\ oi_unit_price (new_order_item rq it d) = mi_price it
    /\ forall updates : list menu_update_request,
         option_map order_items (after_updates updates (Some d1))
         = Some (order_items d1).
Proof.
  intros H.
  destruct (add_order_item_success answer rq d panel H) as (it & d1 & Hit & Hd & Hoi & _).
  exists it, d1; repeat split; auto.
  intros updates.
  destruct (after_updates_frame updates d1) as [ms ->]; reflexivity.
Qed.

Lemma price_snapshot_survives_menu_updates_witness :
  exists it d1,
    find (fun m => mi_item_id m =? 1) (menu_items sample_db) = Some it
    /\ disk (add_order_item true (mkOrderItemRequest 1 1 2 None) (Some sample_db))
       = Some d1
    /\ order_items d1
       = (order_items sample_db
            ++ [new_order_item (mkOrderItemRequest 1 1 2 None) it sample_db])%list
    /\ oi_unit_price (new_order_item (mkOrderItemRequest 1 1 2 None) it sample_db)
       = mi_price it
    /\ forall updates : list menu_update_request,
         option_map order_items (after_updates updates (Some d1))
         = Some (order_items d1).
Proof.
  apply (price_snapshot_survives_menu_updates true (mkOrderItemRequest 1 1 2 None)
           sample_db
           (mkItemPanel "Risotto" 2 (18 # 1) ((18 # 1) * inject_Z 2)%Q
                        ((0 + 2 # 1) * (18 # 1) + 0
                         + ((0 + 2 # 1) * (18 # 1) + 0) * (8 # 100) + 0)%Q)).
  vm_compute; reflexivity.
Defined.

(** ** add_menu_item *)

(** C10 as stated fails: before the price is looked at,
    [check_database_exists] has opened a connection and run a statement. *)
Lemma add_menu_item_price_check_after_probe :
  let r := add_menu_item (mkMenuItemRequest "Soup" 0 1 None) (Some sample_db) in
  printed r = [PriceNotPositive]
  /\ connections r <> []
  /\ (exists c, In c (connections r) /\ In (SELECT SqliteMaster) (statements c)).
Proof.
  cbv zeta; repeat split.
  - vm_compute; discriminate.
  - exists (probe_of sample_db); split; [left; reflexivity | right; left; reflexivity].
Qed.

(** C10. On an initialized database, for a category identity that fits in
    64 bits and a price that is a number, [add_menu_item]
    - for a price that is not above 0 prints the price message and exits
      with code 1, having opened no connection but the one of
      [check_database_exists];
    - else, for an unknown category, prints that it was not found and
      fails;
    in both cases no write was asked for and the database is what it was.
    Otherwise menu_items gains exactly one row, with the given name,
    description, price and category, and nothing else changes. *)
Theorem add_menu_item_outcomes (rq : menu_item_request) (d : database) :
  int64 (mr_category_id rq) ->
  let r := add_menu_item rq (Some d) in
  if Qle_bool (mr_price rq) 0
  then result r = inl (Exit 1)
       /\ printed r = [PriceNotPositive]
       /\ connections r = [probe_of d]
       /\ untouched r d
  else
    match find (fun c => ct_category_id c =? mr_category_id rq) (categories d) with
    | None =>
        (exists e, result r = inl e)
        /\ hd_error (printed r) = Some (CategoryNotFound (mr_category_id rq))
        /\ untouched r d
    | Some c =>
        let id := next_id mi_item_id (menu_items d) in
        disk r
        = Some (with_menu_items d
                  (menu_items d ++
                   [mkMenuItem id (mr_name rq) (mr_description rq) (mr_price rq)
                               (mr_category_id rq) (default_is_available (ddl d))]))
    end.
Proof.
  intros _; cbv zeta; unfold add_menu_item, untouched.
  rewrite check_database_exists_initialized; cbn [negb].
  destruct (Qle_bool (mr_price rq) 0).
  { cbn; repeat split; repeat constructor. }
  unfold add_menu_item_body; unfold_unit; cbn -[find order_by].
  destruct (find _ (categories d)) as [c |] eqn:Hc; cbn -[find order_by].
  - rewrite (find_existsb _ _ _ Hc); cbn; reflexivity.
  - split; [eexists; reflexivity |]; repeat split; repeat constructor.
Qed.

Lemma add_menu_item_outcomes_witness :
  let rq := mkMenuItemRequest "Soup" (5 # 1) 1 (Some "Of the day") in
  let r := add_menu_item rq (Some sample_db) in
  disk r
  = Some (with_menu_items sample_db
            [mkMenuItem 1 "Risotto" None (18 # 1) 1 1;
             mkMenuItem 2 "Soup" (Some "Of the day") (5 # 1) 1 1]).
Proof.
  apply (add_menu_item_outcomes
           (mkMenuItemRequest "Soup" (5 # 1) 1 (Some "Of the day")) sample_db).
  split; [vm_compute; discriminate | reflexivity].
Defined.

(** ** list_reservations *)

(** The byte order of texts is a total preorder. *)
Lemma string_compare_refl (a : string) : String.compare a a = Eq.
Proof.
  pose proof (String.compare_antisym a a) as H.
  destruct (String.compare a a); cbn in H; congruence.
Qed.

Lemma string_compare_lt_trans (a b c : string) :
  String.compare a b = Lt -> String.compare b c = Lt -> String.compare a c = Lt.
Proof.
  revert b c; induction a as [| x a IH]; intros [| y b] [| z c]; cbn;
    try congruence.
  unfold Ascii.compare.
  destruct (N.compare_spec (N_of_ascii x) (N_of_ascii y)) as [Hxy | Hxy | Hxy];
    destruct (N.compare_spec (N_of_ascii y) (N_of_ascii z)) as [Hyz | Hyz | Hyz];
    try congruence; intros H1 H2.
  - rewrite Hxy, Hyz, N.compare_refl; eauto.
  - rewrite Hxy; apply N.compare_lt_iff in Hyz; rewrite Hyz; reflexivity.
  - rewrite <- Hyz; apply N.compare_lt_iff in Hxy; rewrite Hxy; reflexivity.
  - assert (H : (N_of_ascii x < N_of_ascii z)%N) by lia.
    apply N.compare_lt_iff in H; rewrite H; reflexivity.
Qed.

Lemma string_ltb_lt (a b : string) : String.ltb a b = true <-> String.compare a b = Lt.
Proof. unfold String.ltb; destruct (String.compare a b); split; congruence. Qed.

Lemma string_leb_cases (a b : string) :
  String.leb a b = true <-> String.compare a b = Lt \/ a = b.
Proof.
  unfold String.leb; split.
  - destruct (String.compare a b) eqn:E; intros H; try discriminate; auto.
    right; apply String.compare_eq_iff; exact E.
  - intros [-> | ->]; [reflexivity | rewrite string_compare_refl; reflexivity].
Qed.

Lemma string_leb_trans (a b c : string) :
  String.leb a b = true -> String.leb b c = true -> String.leb a c = true.
Proof.
  rewrite !string_leb_cases; intros [H1 | ->] [H2 | ->]; auto.
  left; eapply string_compare_lt_trans; eauto.
Qed.



Section OrderBy.

Context {A : Type} (le : A -> A -> bool).
Hypothesis le_total : forall a b, le a b = false -> le b a = true.
Hypothesis le_trans :
  forall a b c, le a b = true -> le b c = true -> le a c = true.

Lemma insert_by_In (x y : A) (l : list A) :
  In y (insert_by le x l) <-> y = x \/ In y l.
Proof.
  induction l as [| z l IH]; cbn.
  - intuition.
  - destruct (le x z); cbn; [intuition | rewrite IH; intuition].
Qed.

Lemma order_by_In (y : A) (l : list A) : In y (order_by le l) <-> In y l.
Proof.
  induction l as [| x l IH]; cbn; [reflexivity |].
  rewrite insert_by_In, IH; intuition.
Qed.

Lemma insert_by_sorted (x : A) (l : list A) :
  StronglySorted (fun a b => le a b = true) l ->
  StronglySorted (fun a b => le a b = true) (insert_by le x l).
Proof.
  induction 1 as [| y l Hl IH Hy]; cbn.
  - repeat constructor.
  - destruct (le x y) eqn:E.
    + constructor; [constructor; assumption |].
      constructor; [exact E |].
      rewrite Forall_forall in *; intros z Hz; eauto.
    + constructor; [exact IH |].
      rewrite Forall_forall in *; intros z Hz.
      apply insert_by_In in Hz; destruct Hz as [-> | Hz]; auto.
Qed.

Lemma order_by_sorted (l : list A) :
  StronglySorted (fun a b => le a b = true) (order_by le l).
Proof.
  induction l as [| x l IH]; cbn; [constructor | apply insert_by_sorted, IH].
Qed.

End OrderBy.

Section KeepsOrder.

Context {A : Type} (R : A -> A -> Prop).



End KeepsOrder.








(** * Further properties of the code *)

(** ** The window of the conflict query *)

Lemma digit_mod (a : nat) : digit (a mod 10) = digit a.
Proof. unfold digit; rewrite Nat.Div0.mod_mod; reflexivity. Qed.

Lemma digit_compare_small (a b : nat) :
  (a < 10)%nat -> (b < 10)%nat ->
  Ascii.compare (digit a) (digit b) = Nat.compare a b.
Proof.
  intros Ha Hb.
  do 10 (destruct a as [| a]; [do 10 (destruct b as [| b]; [reflexivity |]); lia |]).
  lia.
Qed.

Lemma digit_compare (a b : nat) :
  Ascii.compare (digit a) (digit b) = Nat.compare (a mod 10) (b mod 10).
Proof.
  rewrite <- (digit_mod a), <- (digit_mod b).
  apply digit_compare_small; apply Nat.mod_upper_bound; discriminate.
Qed.

(** Two-digit renderings compare like the numbers they render. *)
Lemma two_digits_compare (a b : nat) (s s' : string) :
  (a < 100)%nat -> (b < 100)%nat ->
  String.compare (two_digits a ++ s) (two_digits b ++ s')
  = match Nat.compare a b with
    | Eq => String.compare s s'
    | c => c
    end.
Proof.
  intros Ha Hb; unfold two_digits; cbn [append String.compare].
  rewrite !digit_compare.
  assert (Hqa : (a / 10 < 10)%nat) by (apply Nat.Div0.div_lt_upper_bound; lia).
  assert (Hqb : (b / 10 < 10)%nat) by (apply Nat.Div0.div_lt_upper_bound; lia).
  rewrite (Nat.mod_small (a / 10)), (Nat.mod_small (b / 10)) by assumption.
  pose proof (Nat.div_mod_eq a 10) as Ea.
  pose proof (Nat.div_mod_eq b 10) as Eb.
  pose proof (Nat.mod_upper_bound a 10 ltac:(discriminate)) as Ba.
  pose proof (Nat.mod_upper_bound b 10 ltac:(discriminate)) as Bb.
  destruct (Nat.compare_spec (a / 10) (b / 10)) as [Hq | Hq | Hq];
    destruct (Nat.compare_spec (a mod 10) (b mod 10)) as [Hr | Hr | Hr];
    destruct (Nat.compare_spec a b) as [Hc | Hc | Hc];
    try reflexivity; exfalso; lia.
Qed.

(** A stored [HH:MM] against a bound [HH:MM:SS] of the window: on equal
    hours and minutes the shorter text is the smaller one. *)
Lemma compare_hhmm_hhmmss (rh rm h m : nat) :
  (rh < 24)%nat -> (rm < 60)%nat -> (h < 24)%nat -> (m < 60)%nat ->
  String.compare (hhmm (mkTime rh rm)) (hhmmss h m)
  = match Nat.compare rh h with
    | Eq => match Nat.compare rm m with
            | Eq => Lt
            | c => c
            end
    | c => c
    end.
Proof.
  intros Hrh Hrm Hh Hm; unfold hhmm, hhmmss; cbn [hour minute].
  rewrite two_digits_compare by lia.
  destruct (Nat.compare rh h); try reflexivity.
  cbn [append String.compare]; rewrite Ascii.compare_antisym.
  replace (Ascii.compare ":" ":") with Eq by reflexivity; cbn [CompOpp].
  replace (two_digits rm) with (two_digits rm ++ "") by (unfold two_digits; reflexivity).
  rewrite two_digits_compare by lia.
  destruct (Nat.compare rm m); reflexivity.
Qed.

Lemma minutes_compare (rh rm h m : nat) :
  (rm < 60)%nat -> (m < 60)%nat ->
  match Nat.compare rh h with
  | Eq => Nat.compare rm m
  | c => c
  end
  = Z.compare (minute_of_day (mkTime rh rm)) (minute_of_day (mkTime h m)).
Proof.
  intros Hrm Hm; unfold minute_of_day; cbn [hour minute].
  destruct (Nat.compare_spec rh h) as [E | L | G];
    [destruct (Nat.compare_spec rm m) as [E' | L' | G'] | |];
    symmetry;
    first [apply Z.compare_eq_iff | apply Z.compare_lt_iff | apply Z.compare_gt_iff];
    lia.
Qed.

Lemma sqlite_time_hhmmss (t : time) (hours : Z) :
  exists h m,
    (h < 24)%nat /\ (m < 60)%nat
    /\ sqlite_time t hours = hhmmss h m
    /\ minute_of_day (mkTime h m) = (minute_of_day t + 60 * hours) mod 1440.
Proof.
  set (x := (minute_of_day t + 60 * hours) mod 1440).
  assert (Hx : 0 <= x < 1440) by (apply Z.mod_pos_bound; lia).
  exists (Z.to_nat (x / 60)), (Z.to_nat (x mod 60)).
  assert (Hq : 0 <= x / 60 < 24)
    by (split; [apply Z.div_pos; lia | apply Z.div_lt_upper_bound; lia]).
  assert (Hr : 0 <= x mod 60 < 60) by (apply Z.mod_pos_bound; lia).
  repeat split; try lia.
  unfold minute_of_day; cbn [hour minute].
  rewrite !Z2Nat.id by lia.
  pose proof (Z.div_mod x 60 ltac:(lia)); lia.
Qed.

(** Around the request [t], the window of the conflict query holds the
    stored [HH:MM] times that are less than 60 minutes before and at most 60
    minutes after [t], and none at all when [t] is before 01:00 or from
    23:00 on. *)
Lemma between_window (t r : time) :
  valid_time t -> valid_time r ->
  between (hhmm r) (sqlite_time t (-1)) (sqlite_time t 1) = true
  <-> (1 <= hour t <= 22)%nat
      /\ -60 < minute_of_day r - minute_of_day t <= 60.
Proof.
  intros [Hth Htm] [Hrh Hrm].
  destruct (sqlite_time_hhmmss t (-1)) as (lh & lm & Hlh & Hlm & -> & Elo).
  destruct (sqlite_time_hhmmss t 1) as (uh & um & Huh & Hum & -> & Ehi).
  destruct r as [rh rm]; cbn [hour minute] in *.
  unfold between, String.leb.
  rewrite (String.compare_antisym (hhmmss lh lm)).
  rewrite !compare_hhmm_hhmmss by assumption.
  pose proof (minutes_compare rh rm lh lm Hrm Hlm) as Clo.
  pose proof (minutes_compare rh rm uh um Hrm Hum) as Chi.
  assert (Ht : 0 <= minute_of_day t < 1440)
    by (unfold minute_of_day; lia).
  assert (Hr : 0 <= minute_of_day (mkTime rh rm) < 1440)
    by (unfold minute_of_day; cbn [hour minute]; lia).
  assert (Hh : (1 <= hour t <= 22)%nat <-> 60 <= minute_of_day t < 1380)
    by (unfold minute_of_day; lia).
  rewrite Hh; clear Hh.
  set (T := minute_of_day t) in *; set (R := minute_of_day (mkTime rh rm)) in *.
  set (LO := minute_of_day (mkTime lh lm)) in *.
  set (HI := minute_of_day (mkTime uh um)) in *.
  assert (Hlo : (60 <= T -> LO = T - 60) /\ (T < 60 -> LO = T + 1380)).
  { split; intros H; rewrite Elo.
    - rewrite Z.mod_small; lia.
    - replace (T + 60 * -1) with (T + 1380 + (-1) * 1440) by lia.
      rewrite Z.mod_add by lia; rewrite Z.mod_small; lia. }
  assert (Hhi : (T < 1380 -> HI = T + 60) /\ (1380 <= T -> HI = T - 1380)).
  { split; intros H; rewrite Ehi.
    - rewrite Z.mod_small; lia.
    - replace (T + 60 * 1) with (T - 1380 + 1 * 1440) by lia.
      rewrite Z.mod_add by lia; rewrite Z.mod_small; lia. }
  assert (Glo : (match Nat.compare rh lh with
                 | Eq => match Nat.compare rm lm with Eq => Lt | c => c end
                 | c => c
                 end = Gt) <-> LO < R).
  { rewrite <- Z.compare_gt_iff, <- Clo.
    destruct (Nat.compare rh lh); [destruct (Nat.compare rm lm) |..];
      split; congruence. }
  assert (Ghi : (match Nat.compare rh uh with
                 | Eq => match Nat.compare rm um with Eq => Lt | c => c end
                 | c => c
                 end <> Gt) <-> R <= HI).
  { unfold Z.le; rewrite <- Chi.
    destruct (Nat.compare rh uh); [destruct (Nat.compare rm um) |..];
      split; congruence. }
  rewrite andb_true_iff.
  split.
  - intros [H1 H2].
    assert (G1 : LO < R).
    { apply Glo.
      destruct (Nat.compare rh lh); [destruct (Nat.compare rm lm) |..];
        cbn in H1; congruence. }
    assert (G2 : R <= HI).
    { apply Ghi; intros E; rewrite E in H2; discriminate. }
    lia.
  - intros [HT HR].
    assert (G1 : LO < R) by lia.
    assert (G2 : R <= HI) by lia.
    apply Glo in G1; apply Ghi in G2; split.
    + rewrite G1; reflexivity.
    + destruct (match Nat.compare rh uh with
                | Eq => match Nat.compare rm um with Eq => Lt | c => c end
                | c => c
                end); congruence.
Qed.

(** X1. The conflict query, read on stored [HH:MM] times: a reservation is
    found for the request exactly when it is of the same table and date,
    Confirmed or Seated, the request is between 01:00 and 22:59, and the
    stored time is less than 60 minutes before or at most 60 minutes after
    the requested one. *)
Theorem conflict_where_window (table_id : Z) (date_str : string) (t tr : time)
        (r : reservation) :
  valid_time t -> valid_time tr -> rs_reservation_time r = hhmm tr ->
  conflict_where table_id date_str t r = true
  <-> rs_table_id r = table_id
      /\ rs_reservation_date r = date_str
      /\ (rs_status r = "Confirmed" \/ rs_status r = "Seated")
      /\ (1 <= hour t <= 22)%nat
      /\ -60 < minute_of_day tr - minute_of_day t <= 60.
Proof.
  intros Ht Htr Er; unfold conflict_where, text_in; rewrite Er; cbn [existsb].
  rewrite !andb_true_iff, !orb_true_iff, Z.eqb_eq, !String.eqb_eq.
  rewrite (between_window t tr Ht Htr).
  intuition congruence.
Qed.

Lemma conflict_where_window_witness :
  conflict_where 1 "2025-06-01" (mkTime 18 0)
                 (mkReservation 1 1 1 "2025-06-01" "19:00" 2 "Seated" None) = true
  <-> 1 = 1
      /\ "2025-06-01" = "2025-06-01"
      /\ ("Seated" = "Confirmed" \/ "Seated" = "Seated")
      /\ (1 <= 18 <= 22)%nat
      /\ -60 < minute_of_day (mkTime 19 0) - minute_of_day (mkTime 18 0) <= 60.
Proof.
  apply (conflict_where_window 1 "2025-06-01" (mkTime 18 0) (mkTime 19 0)
           (mkReservation 1 1 1 "2025-06-01" "19:00" 2 "Seated" None)).
  - split; cbn; lia.
  - split; cbn; lia.
  - reflexivity.
Defined.

(** ** Runs of create_reservation *)

(** The run of [create_reservation] on an initialized database, case by
    case. *)
Lemma create_reservation_run (today : date) (answer : bool)
      (rq : reservation_request) (d : database) :
  create_reservation today answer rq (Some d)
  = match reservation_verdict today answer rq d with
    | InvalidDate => mkRun (inl (Exit 1)) [PastDate] [probe_of d] (Some d)
    | InvalidPartySize =>
        mkRun (inl (Exit 1)) [PartySizeTooSmall] [probe_of d] (Some d)
    | NotFoundCustomer =>
        mkRun (inl (Exit 1)) [CustomerNotFound (rq_customer_id rq)]
              [probe_of d; unit_of d [SELECT Customers]] (Some d)
    | NotFoundTable =>
        mkRun (inl (Exit 1)) [TableNotFound (rq_table_id rq)]
              [probe_of d; unit_of d [SELECT Customers; SELECT Tables]] (Some d)
    | OverCapacityDeclined =>
        mkRun (inl (Exit 0)) (capacity_warning rq d)
              [probe_of d; unit_of d [SELECT Customers; SELECT Tables]] (Some d)
    | SlotConflict =>
        mkRun (inl (Exit 1)) (capacity_warning rq d ++ [TableAlreadyReserved])%list
              [probe_of d;
               unit_of d [SELECT Customers; SELECT Tables; SELECT Reservations]]
              (Some d)
    | Inserted =>
        mkRun (inr (panel_of rq d)) (capacity_warning rq d)
              [probe_of d;
               unit_of (reserved rq d)
                       [SELECT Customers; SELECT Tables; SELECT Reservations;
                        INSERT Reservations]]
              (Some (reserved rq d))
    end.
Proof.
  unfold create_reservation, reservation_verdict, capacity_warning, panel_of,
    reserved, new_reservation, unit_of.
  rewrite check_database_exists_initialized; cbn [negb].
  destruct (date_ltb (rq_date rq) today); [reflexivity |].
  destruct (rq_party_size rq <? 1); [reflexivity |].
  rewrite !existsb_find.
  unfold create_reservation_body; unfold_unit.
  cbn -[find].
  destruct (find _ (customers d)) as [cu |] eqn:Hcu; cbn -[find]; [| reflexivity].
  destruct (find _ (tables d)) as [tb |] eqn:Htb; cbn -[find]; [| reflexivity].
  destruct (rq_party_size rq >? tb_capacity tb), answer; cbn -[find].
  all: try (destruct (find _ (reservations d)) as [res |] eqn:Hres; cbn -[find]).
  all: try rewrite (find_existsb _ _ _ Hcu), (find_existsb _ _ _ Htb); cbn -[find].
  all: reflexivity.
Qed.

Lemma compare_hhmmss (h m h' m' : nat) :
  (h < 24)%nat -> (m < 60)%nat -> (h' < 24)%nat -> (m' < 60)%nat ->
  String.compare (hhmmss h m) (hhmmss h' m')
  = Z.compare (minute_of_day (mkTime h m)) (minute_of_day (mkTime h' m')).
Proof.
  intros Hh Hm Hh' Hm'; rewrite <- minutes_compare by assumption.
  unfold hhmmss; rewrite two_digits_compare by lia.
  destruct (Nat.compare h h'); try reflexivity.
  cbn [append String.compare].
  replace (Ascii.compare ":" ":") with Eq by reflexivity.
  change (String ":" (String "0" (String "0" EmptyString))) with (":00")%string.
  rewrite two_digits_compare by lia.
  destruct (Nat.compare m m'); reflexivity.
Qed.

(** Before 01:00 and from 23:00 on the lower bound of the window is the
    larger one: no text at all lies between the bounds. *)
Lemma between_around_midnight (t : time) (x : string) :
  valid_time t -> (hour t = 0 \/ hour t = 23)%nat ->
  between x (sqlite_time t (-1)) (sqlite_time t 1) = false.
Proof.
  intros [Hh Hm] Hmid.
  destruct (sqlite_time_hhmmss t (-1)) as (lh & lm & Hlh & Hlm & Elo & Mlo).
  destruct (sqlite_time_hhmmss t 1) as (uh & um & Huh & Hum & Ehi & Mhi).
  assert (Hgt : String.leb (sqlite_time t (-1)) (sqlite_time t 1) = false).
  { rewrite Elo, Ehi; unfold String.leb.
    rewrite compare_hhmmss by assumption.
    assert (G : minute_of_day (mkTime uh um) < minute_of_day (mkTime lh lm)).
    { rewrite Mlo, Mhi; unfold minute_of_day.
      destruct Hmid as [E | E]; rewrite E.
      - replace (Z.of_nat 0 * 60 + Z.of_nat (minute t) + 60 * -1)
          with (Z.of_nat (minute t) + 1380 + (-1) * 1440) by lia.
        rewrite Z.mod_add by lia; rewrite !Z.mod_small; lia.
      - replace (Z.of_nat 23 * 60 + Z.of_nat (minute t) + 60 * 1)
          with (Z.of_nat (minute t) + 1 * 1440) by lia.
        rewrite Z.mod_add by lia; rewrite !Z.mod_small; lia. }
    apply Z.compare_gt_iff in G; rewrite G; reflexivity. }
  unfold between.
  destruct (String.leb (sqlite_time t (-1)) x) eqn:E1; [| reflexivity].
  destruct (String.leb x (sqlite_time t 1)) eqn:E2; [| reflexivity].
  rewrite (string_leb_trans _ _ _ E1 E2) in Hgt; discriminate.
Qed.

Lemma conflict_where_around_midnight (table_id : Z) (date_str : string)
      (t : time) (rs : list reservation) :
  valid_time t -> (hour t = 0 \/ hour t = 23)%nat ->
  existsb (conflict_where table_id date_str t) rs = false.
Proof.
  intros Ht Hmid; induction rs as [| r rs IH]; cbn [existsb]; [reflexivity |].
  rewrite IH, orb_false_r; unfold conflict_where.
  rewrite (between_around_midnight t _ Ht Hmid), andb_false_r; reflexivity.
Qed.

(** X2. For a request before 01:00 or from 23:00 on, [create_reservation]
    never reports that the table is taken, whatever the database holds, and
    a request that succeeded succeeds again when repeated: the same slot is
    booked twice. *)
Theorem create_reservation_blind_around_midnight (today : date) (answer : bool)
        (rq : reservation_request) (d : database) :
  valid_time (rq_time rq) ->
  (hour (rq_time rq) = 0 \/ hour (rq_time rq) = 23)%nat ->
  let r := create_reservation today answer rq (Some d) in
  ~ In TableAlreadyReserved (printed r)
  /\ (forall panel, result r = inr panel ->
        disk r = Some (reserved rq d)
        /\ result (create_reservation today answer rq (Some (reserved rq d)))
           = inr (panel_of rq (reserved rq d))).
Proof.
  intros Ht Hmid; cbv zeta.
  assert (Hv : forall d0, reservation_verdict today answer rq d0 <> SlotConflict).
  { intros d0; unfold reservation_verdict.
    rewrite (conflict_where_around_midnight _ _ _ _ Ht Hmid).
    destruct (date_ltb _ _); [discriminate |].
    destruct (_ <? 1); [discriminate |].
    destruct (negb _); [discriminate |].
    destruct (find _ _); [| discriminate].
    destruct (_ && _); discriminate. }
  assert (Hsame : reservation_verdict today answer rq (reserved rq d)
                  = reservation_verdict today answer rq d).
  { unfold reservation_verdict.
    rewrite !(conflict_where_around_midnight _ _ _ _ Ht Hmid); reflexivity. }
  rewrite !create_reservation_run, Hsame.
  pose proof (Hv d) as Hd.
  unfold capacity_warning.
  destruct (reservation_verdict today answer rq d); cbn [printed result disk];
    try contradiction.
  all: split; [| intros panel H; try discriminate; split; reflexivity].
  all: try (intros [E | []]; discriminate).
  all: destruct (find _ (tables d)) as [tb |]; [| intros []];
    destruct (_ >? _); [intros [E | []]; discriminate | intros []].
Qed.

Lemma create_reservation_blind_around_midnight_witness :
  let rq := sample_request 23 30 in
  let r := create_reservation sample_today true rq (Some sample_db) in
  ~ In TableAlreadyReserved (printed r)
  /\ (forall panel, result r = inr panel ->
        disk r = Some (reserved rq sample_db)
        /\ result (create_reservation sample_today true rq
                     (Some (reserved rq sample_db)))
           = inr (panel_of rq (reserved rq sample_db))).
Proof.
  apply (create_reservation_blind_around_midnight sample_today true
           (sample_request 23 30) sample_db).
  - split; cbn; lia.
  - right; reflexivity.
Defined.

Lemma create_reservation_inserted (today : date) (answer : bool)
      (rq : reservation_request) (d : database) (panel : reservation_panel) :
  result (create_reservation today answer rq (Some d)) = inr panel ->
  reservation_verdict today answer rq d = Inserted.
Proof.
  rewrite create_reservation_run.
  destruct (reservation_verdict today answer rq d); cbn; congruence.
Qed.

Lemma existsb_app_last {A : Type} (f : A -> bool) (l : list A) (x : A) :
  f x = true -> existsb f (l ++ [x]) = true.
Proof.
  intros H; rewrite existsb_app; cbn; rewrite H, orb_true_r; reflexivity.
Qed.

(** X3. Dates and times being given in the zero-padded forms YYYY-MM-DD
    and HH:MM: once a reservation has been made for a time of day [t], with
    a schema whose default status is Confirmed or Seated, no later request
    for the same table and date at a time [t2] between 01:00 and 22:59 with
    [t - 60 <= t2 < t + 60] (in minutes) is inserted, whoever asks and
    whatever the operator answers: the run does not succeed and leaves the
    database as it was. *)
Theorem reserved_slot_is_protected (today today2 : date) (answer answer2 : bool)
        (rq rq2 : reservation_request) (d : database) (panel : reservation_panel) :
  result (create_reservation today answer rq (Some d)) = inr panel ->
  default_reservation_status (ddl d) = "Confirmed"
  \/ default_reservation_status (ddl d) = "Seated" ->
  rq_table_id rq2 = rq_table_id rq ->
  rq_date rq2 = rq_date rq ->
  valid_time (rq_time rq) -> valid_time (rq_time rq2) ->
  (1 <= hour (rq_time rq2) <= 22)%nat ->
  -60 < minute_of_day (rq_time rq) - minute_of_day (rq_time rq2) <= 60 ->
  let r2 := create_reservation today2 answer2 rq2 (Some (reserved rq d)) in
  disk (create_reservation today answer rq (Some d)) = Some (reserved rq d)
  /\ (forall panel2, result r2 <> inr panel2)
  /\ disk r2 = Some (reserved rq d).
Proof.
  intros Hok Hst Htb Hdt Ht Ht2 Hh Hw; cbv zeta.
  pose proof (create_reservation_inserted _ _ _ _ _ Hok) as Hv.
  split.
  { rewrite create_reservation_run, Hv; reflexivity. }
  assert (Hc : existsb (conflict_where (rq_table_id rq2) (isoformat (rq_date rq2))
                                       (rq_time rq2))
                       (reservations (reserved rq d)) = true).
  { unfold reserved; cbn [reservations with_reservations].
    apply existsb_app_last.
    unfold conflict_where, new_reservation;
      cbn [rs_table_id rs_reservation_date rs_reservation_time rs_status].
    rewrite Htb, Hdt, Z.eqb_refl, String.eqb_refl.
    rewrite (proj2 (between_window (rq_time rq2) (rq_time rq) Ht2 Ht)) by (split; lia).
    destruct Hst as [-> | ->]; reflexivity. }
  assert (Hv2 : reservation_verdict today2 answer2 rq2 (reserved rq d) <> Inserted).
  { unfold reservation_verdict; rewrite Hc.
    destruct (date_ltb _ _); [discriminate |].
    destruct (_ <? 1); [discriminate |].
    destruct (negb _); [discriminate |].
    destruct (find _ _); [| discriminate].
    destruct (_ && _); discriminate. }
  rewrite create_reservation_run.
  destruct (reservation_verdict today2 answer2 rq2 (reserved rq d));
    cbn [result disk]; try contradiction; split; try reflexivity;
    intros panel2; discriminate.
Qed.

Lemma reserved_slot_is_protected_witness :
  let d := with_reservations sample_db [] in
  let rq := sample_request 18 0 in
  let rq2 := sample_request 17 0 in
  let r2 := create_reservation sample_today false rq2 (Some (reserved rq d)) in
  disk (create_reservation sample_today true rq (Some d)) = Some (reserved rq d)
  /\ (forall panel2, result r2 <> inr panel2)
  /\ disk r2 = Some (reserved rq d).
Proof.
  apply (reserved_slot_is_protected sample_today sample_today true false
           (sample_request 18 0) (sample_request 17 0)
           (with_reservations sample_db [])
           (panel_of (sample_request 18 0) (with_reservations sample_db []))).
  - vm_compute; reflexivity.
  - left; reflexivity.
  - reflexivity.
  - reflexivity.
  - split; cbn; lia.
  - split; cbn; lia.
  - cbn; lia.
  - cbn; lia.
Defined.

(** ** Connections of the commands *)

Lemma keeps_ret {A} (a : A) : keeps_foreign_keys (ret a).
Proof. intros c; reflexivity. Qed.

Lemma keeps_raise {A} (e : exn) : keeps_foreign_keys (@raise A e).
Proof. intros c; reflexivity. Qed.

Lemma keeps_print (m : message) : keeps_foreign_keys (print m).
Proof. intros c; reflexivity. Qed.

Lemma keeps_query {A} (s : stmt) (f : database -> A) :
  keeps_foreign_keys (query s f).
Proof. intros c; reflexivity. Qed.

Lemma keeps_write {A} (s : stmt) (parents : database -> bool)
      (f : database -> database * A) :
  keeps_foreign_keys (write s parents f).
Proof. intros c; unfold write; destruct (_ && _); reflexivity. Qed.

Lemma keeps_bind {A B} (m : M A) (k : A -> M B) :
  keeps_foreign_keys m -> (forall a, keeps_foreign_keys (k a)) ->
  keeps_foreign_keys (bind m k).
Proof.
  intros Hm Hk c; unfold bind.
  specialize (Hm c); destruct (m c) as [[e | a] c']; cbn in *; [exact Hm |].
  rewrite Hk; exact Hm.
Qed.

(** Walks through a body built from the operations of the monad. *)
Ltac keeps :=
  repeat first
    [ apply keeps_ret | apply keeps_raise | apply keeps_print
    | apply keeps_query | apply keeps_write
    | apply keeps_bind; [| intros ?]
    | match goal with
      | |- keeps_foreign_keys (match ?x with _ => _ end) => destruct x
      end ].

Lemma create_reservation_body_keeps (answer : bool) (rq : reservation_request) :
  keeps_foreign_keys (create_reservation_body answer rq).
Proof.
  unfold create_reservation_body, select_customer, select_table, select_conflict,
    insert_reservation; keeps.
Qed.

Lemma add_order_item_body_keeps (answer : bool) (rq : order_item_request) :
  keeps_foreign_keys (add_order_item_body answer rq).
Proof.
  unfold add_order_item_body, select_order, select_menu_item, insert_order_item,
    select_total; keeps.
Qed.

Lemma add_menu_item_body_keeps (rq : menu_item_request) :
  keeps_foreign_keys (add_menu_item_body rq).
Proof.
  unfold add_menu_item_body, select_category, select_categories, insert_menu_item;
    keeps.
Qed.

Lemma update_menu_item_body_keeps (rq : menu_update_request) :
  keeps_foreign_keys (update_menu_item_body rq).
Proof.
  unfold update_menu_item_body, select_menu_item, price_update, execute_update,
    select_updated; keeps.
Qed.

(** The connection that [get_db_cursor] leaves is closed with nothing
    pending, whatever the body did, and still enforces foreign keys when the
    body left that setting alone. *)
Lemma get_db_cursor_well_kept {A} (body : M A) (d : database)
      (console : list message) :
  keeps_foreign_keys body ->
  well_kept (snd (fst (get_db_cursor body d console))).
Proof.
  intros Hk; unfold get_db_cursor.
  specialize (Hk (enter (cursor (get_connection d)) console)).
  destruct (body _) as [[e | a] x]; cbn in *; repeat split; exact Hk.
Qed.

Lemma transaction_well_kept {A} (probe : list conn) (file : option database)
      (body : M A) :
  keeps_foreign_keys body -> Forall well_kept probe ->
  Forall well_kept (connections (transaction probe file body)).
Proof.
  intros Hk Hp; unfold transaction; destruct file as [d |]; [| exact Hp].
  pose proof (get_db_cursor_well_kept body d [] Hk) as H.
  destruct (get_db_cursor body d []) as [[r c] console]; cbn in *.
  apply Forall_app; split; [exact Hp | constructor; [exact H | constructor]].
Qed.

Lemma check_database_exists_well_kept (file : option database) :
  Forall well_kept (snd (check_database_exists file)).
Proof.
  destruct file as [d |]; [| constructor].
  rewrite check_database_exists_initialized.
  repeat constructor.
Qed.

(** X4. Every connection that create_reservation, add_order_item,
    add_menu_item and update_menu_item open, on any path and whether the
    database is initialized or not, is left with its cursor and itself
    closed, nothing pending, and foreign keys enforced. *)
Theorem commands_leave_connections_well_kept (today : date) (answer : bool)
        (rq : reservation_request) (irq : order_item_request)
        (mrq : menu_item_request) (urq : menu_update_request)
        (file : option database) :
  Forall well_kept (connections (create_reservation today answer rq file))
  /\ Forall well_kept (connections (add_order_item answer irq file))
  /\ Forall well_kept (connections (add_menu_item mrq file))
  /\ Forall well_kept (connections (update_menu_item urq file)).
Proof.
  pose proof (check_database_exists_well_kept file) as Hp.
  unfold create_reservation, add_order_item, add_menu_item, update_menu_item.
  destruct (check_database_exists file) as [initialized probe]; cbn [snd] in Hp.
  destruct initialized; cbn [negb]; [| repeat split; exact Hp].
  repeat split.
  - destruct (date_ltb _ _); [exact Hp |].
    destruct (_ <? 1); [exact Hp |].
    apply transaction_well_kept; [apply create_reservation_body_keeps | exact Hp].
  - destruct (_ <? 1); [exact Hp |].
    apply transaction_well_kept; [apply add_order_item_body_keeps | exact Hp].
  - destruct (Qle_bool _ _); [exact Hp |].
    apply transaction_well_kept; [apply add_menu_item_body_keeps | exact Hp].
  - destruct (no_updates _); [exact Hp |].
    pose proof (transaction_well_kept probe file (update_menu_item_body urq)
                  (update_menu_item_body_keeps urq) Hp) as H.
    destruct (result (transaction probe file (update_menu_item_body urq)))
      as [e | [u |]]; exact H.
Qed.

(** ** Runs of the other commands *)

(** The run of [add_order_item] on an initialized database, case by case. *)
Lemma add_order_item_run (answer : bool) (rq : order_item_request) (d : database) :
  add_order_item answer rq (Some d)
  = if ir_quantity rq <? 1
    then mkRun (inl (Exit 1)) [QuantityTooSmall] [probe_of d] (Some d)
    else
      match find (fun r => od_order_id r =? ir_order_id rq) (orders d) with
      | None =>
          mkRun (inl (Exit 1)) [OrderNotFound (ir_order_id rq)]
                [probe_of d; unit_of d [SELECT Orders]] (Some d)
      | Some o =>
          if text_in (od_status o) ["Completed"; "Cancelled"]
          then mkRun (inl (Exit 1)) [CannotModifyOrder (od_status o)]
                     [probe_of d; unit_of d [SELECT Orders]] (Some d)
          else
            match find (fun r => mi_item_id r =? ir_item_id rq) (menu_items d) with
            | None =>
                mkRun (inl (Exit 1)) [MenuItemNotFound (ir_item_id rq)]
                      [probe_of d; unit_of d [SELECT Orders; SELECT MenuItems]]
                      (Some d)
            | Some it =>
                if (mi_is_available it =? 0) && negb answer
                then mkRun (inl (Exit 0)) (unavailable_warning it)
                           [probe_of d; unit_of d [SELECT Orders; SELECT MenuItems]]
                           (Some d)
                else
                  match find (fun r => od_order_id r =? ir_order_id rq)
                             (orders (ordered rq it d)) with
                  | Some o' =>
                      mkRun (inr (mkItemPanel (mi_name it) (ir_quantity rq)
                                              (mi_price it)
                                              (mi_price it * inject_Z (ir_quantity rq))%Q
                                              (od_total o')))
                            (unavailable_warning it)
                            [probe_of d;
                             unit_of (ordered rq it d)
                                     [SELECT Orders; SELECT MenuItems;
                                      INSERT OrderItems; SELECT Orders]]
                            (Some (ordered rq it d))
                  | None =>
                      mkRun (inl TypeError) (unavailable_warning it)
                            [probe_of d;
                             unit_of d [SELECT Orders; SELECT MenuItems;
                                        INSERT OrderItems; SELECT Orders]]
                            (Some d)
                  end
            end
      end.
Proof.
  unfold add_order_item, unavailable_warning, ordered, new_order_item, unit_of.
  rewrite check_database_exists_initialized; cbn [negb].
  destruct (ir_quantity rq <? 1); [reflexivity |].
  unfold add_order_item_body; unfold_unit; cbn -[find text_in].
  destruct (find _ (orders d)) as [o |] eqn:Ho; cbn -[find text_in];
    [| reflexivity].
  destruct (text_in _ _); cbn -[find]; [reflexivity |].
  destruct (find _ (menu_items d)) as [it |] eqn:Hit; cbn -[find];
    [| reflexivity].
  destruct (mi_is_available it =? 0), answer; cbn -[find existsb];
    try reflexivity.
  all: rewrite (find_existsb _ _ _ Ho), (find_existsb _ _ _ Hit); cbn -[find].
  all: match goal with
       | |- context [find ?f ?l] => destruct (find f l) as [o' |]
       end; reflexivity.
Qed.

(** The run of [add_menu_item] on an initialized database, case by case. *)
Lemma add_menu_item_run (rq : menu_item_request) (d : database) :
  add_menu_item rq (Some d)
  = if Qle_bool (mr_price rq) 0
    then mkRun (inl (Exit 1)) [PriceNotPositive] [probe_of d] (Some d)
    else
      match find (fun c => ct_category_id c =? mr_category_id rq) (categories d) with
      | None =>
          mkRun (inl (Exit 1))
                [CategoryNotFound (mr_category_id rq);
                 AvailableCategories
                   (map (fun r => (ct_category_id r, ct_name r))
                        (order_by (fun a b => String.leb (ct_name a) (ct_name b))
                                  (categories d)))]
                [probe_of d; unit_of d [SELECT Categories; SELECT Categories]]
                (Some d)
      | Some c =>
          mkRun (inr (mkMenuPanel (next_id mi_item_id (menu_items d)) (mr_name rq)
                                  (ct_name c) (mr_price rq)))
                []
                [probe_of d; unit_of (offered rq d) [SELECT Categories; INSERT MenuItems]]
                (Some (offered rq d))
      end.
Proof.
  unfold add_menu_item, offered, new_menu_item, unit_of.
  rewrite check_database_exists_initialized; cbn [negb].
  destruct (Qle_bool (mr_price rq) 0); [reflexivity |].
  unfold add_menu_item_body; unfold_unit; cbn -[find order_by].
  destruct (find _ (categories d)) as [c |] eqn:Hc; cbn -[find order_by];
    [| reflexivity].
  rewrite (find_existsb _ _ _ Hc); reflexivity.
Qed.

(** The run of [update_menu_item] on an initialized database, case by
    case. *)
Lemma update_menu_item_run (rq : menu_update_request) (d : database) :
  update_menu_item rq (Some d)
  = if no_updates rq
    then mkRun (inl (Exit 1)) [NoUpdatesSpecified] [probe_of d] (Some d)
    else
      match find (fun m => mi_item_id m =? ur_item_id rq) (menu_items d) with
      | None =>
          mkRun (inl (Exit 1)) [MenuItemNotFound (ur_item_id rq)]
                [probe_of d; unit_of d [SELECT MenuItems]] (Some d)
      | Some _ =>
          if nonpositive (ur_price rq)
          then mkRun (inl (Exit 1)) [PriceNotPositive]
                     [probe_of d; unit_of d [SELECT MenuItems]] (Some d)
          else
            mkRun (match menu_item_with_category (ur_item_id rq) (updated_menu rq d) with
                   | Some updated => inr updated
                   | None => inl TypeError
                   end)
                  []
                  [probe_of d;
                   unit_of (updated_menu rq d)
                           [SELECT MenuItems; UPDATE MenuItems; SELECT MenuItems]]
                  (Some (updated_menu rq d))
      end.
Proof.
  unfold update_menu_item, updated_menu, unit_of.
  rewrite check_database_exists_initialized; cbn [negb].
  destruct (no_updates rq); [reflexivity |].
  unfold update_menu_item_body; unfold_unit; cbn -[find].
  destruct (find _ (menu_items d)) as [it |] eqn:Hit; cbn -[find]; [| reflexivity].
  assert (Hmap : map (fun r => if mi_item_id r =? ur_item_id rq
                               then fold_left assign
                                      ((match ur_price rq with
                                        | Some p => [SetPrice p]
                                        | None => []
                                        end ++ available_update (ur_available rq))
                                         ++ description_update (ur_description rq)) r
                               else r) (menu_items d)
                 = patched_menu rq d).
  { unfold patched_menu; apply map_ext; intros m.
    rewrite <- fold_left_assign_patched; unfold updates_of.
    rewrite app_assoc; reflexivity. }
  unfold nonpositive.
  destruct (ur_price rq) as [p |] eqn:Hp; cbn -[find];
    [destruct (Qle_bool p 0); cbn -[find]; [reflexivity |] |].
  all: cbn in Hmap; rewrite Hmap.
  all: destruct (menu_item_with_category _ _); reflexivity.
Qed.

(** ** Failures *)

(** A unit of work that raised leaves the file as it was. *)
Lemma transaction_failure {A} (probe : list conn) (file : option database)
      (body : M A) (e : exn) :
  result (transaction probe file body) = inl e ->
  disk (transaction probe file body) = file.
Proof.
  unfold transaction; destruct file as [d |]; [| reflexivity].
  unfold get_db_cursor; destruct (body _) as [[e' | a] x]; cbn; [reflexivity |].
  discriminate.
Qed.

(** X5. A run of create_reservation, add_order_item, add_menu_item or
    update_menu_item that ends in [typer.Exit] or in an error of sqlite3
    leaves the database file as it was: these are raised before the unit of
    work is committed. *)
Theorem failed_commands_change_nothing (today : date) (answer : bool)
        (rq : reservation_request) (irq : order_item_request)
        (mrq : menu_item_request) (urq : menu_update_request)
        (file : option database) :
  (forall e, result (create_reservation today answer rq file) = inl e ->
             exit_or_database_error e ->
             disk (create_reservation today answer rq file) = file)
  /\ (forall e, result (add_order_item answer irq file) = inl e ->
                exit_or_database_error e ->
                disk (add_order_item answer irq file) = file)
  /\ (forall e, result (add_menu_item mrq file) = inl e ->
                exit_or_database_error e ->
                disk (add_menu_item mrq file) = file)
  /\ (forall e, result (update_menu_item urq file) = inl e ->
                exit_or_database_error e ->
                disk (update_menu_item urq file) = file).
Proof.
  unfold create_reservation, add_order_item, add_menu_item, update_menu_item.
  destruct (check_database_exists file) as [initialized probe].
  destruct initialized; cbn [negb]; [| repeat split].
  repeat split.
  - destruct (date_ltb _ _); [reflexivity |].
    destruct (_ <? 1); [reflexivity |].
    intros e H _; revert H; apply transaction_failure.
  - destruct (_ <? 1); [reflexivity |].
    intros e H _; revert H; apply transaction_failure.
  - destruct (Qle_bool _ _); [reflexivity |].
    intros e H _; revert H; apply transaction_failure.
  - destruct (no_updates _); [reflexivity |].
    intros e.
    destruct (result (transaction probe file (update_menu_item_body urq)))
      as [e' | [u |]] eqn:Hr; cbn [result disk].
    + intros _ _; apply (transaction_failure _ _ _ _ Hr).
    + discriminate.
    + intros H He; injection H as <-; destruct He.
Qed.

Lemma failed_commands_change_nothing_witness :
  disk (add_order_item true (mkOrderItemRequest 2 1 1 None) (Some sample_db))
  = Some sample_db.
Proof.
  apply (proj1 (proj2 (failed_commands_change_nothing
                         sample_today true (sample_request 18 0)
                         (mkOrderItemRequest 2 1 1 None)
                         (mkMenuItemRequest "Soup" (5 # 1) 1 None)
                         (mkMenuUpdateRequest 1 None None None)
                         (Some sample_db)))
               (Exit 1)).
  - reflexivity.
  - exact I.
Defined.

(** X6. When update_menu_item ends in TypeError, its UPDATE has been
    committed all the same: the item was found, the request was accepted,
    and the file holds the updated menu; what failed is the lookup of the
    updated row with its category, after the commit. *)
Theorem update_menu_item_fails_after_commit (rq : menu_update_request)
        (d : database) :
  result (update_menu_item rq (Some d)) = inl TypeError ->
  disk (update_menu_item rq (Some d)) = Some (updated_menu rq d)
  /\ menu_item_with_category (ur_item_id rq) (updated_menu rq d) = None
  /\ exists it, find (fun m => mi_item_id m =? ur_item_id rq) (menu_items d) = Some it.
Proof.
  rewrite update_menu_item_run.
  destruct (no_updates rq); [discriminate |].
  destruct (find _ (menu_items d)) as [it |]; [| discriminate].
  destruct (nonpositive _); [discriminate |].
  cbn [result disk].
  destruct (menu_item_with_category _ _); [discriminate |].
  intros _; repeat split; eauto.
Qed.

Lemma update_menu_item_fails_after_commit_witness :
  let rq := mkMenuUpdateRequest 1 (Some (20 # 1)) None None in
  disk (update_menu_item rq (Some sample_orphan_db))
  = Some (updated_menu rq sample_orphan_db)
  /\ menu_item_with_category 1 (updated_menu rq sample_orphan_db) = None
  /\ exists it, find (fun m => mi_item_id m =? 1) (menu_items sample_orphan_db)
                = Some it.
Proof.
  apply (update_menu_item_fails_after_commit
           (mkMenuUpdateRequest 1 (Some (20 # 1)) None None) sample_orphan_db).
  vm_compute; reflexivity.
Defined.

(** ** References between the tables *)

Lemma existsb_map_same {A : Type} (p : A -> bool) (f : A -> A) (l : list A) :
  (forall x, p (f x) = p x) -> existsb p (map f l) = existsb p l.
Proof.
  intros H; induction l as [| x l IH]; cbn; [reflexivity |].
  rewrite H, IH; reflexivity.
Qed.

Lemma existsb_app_left {A : Type} (p : A -> bool) (l l' : list A) :
  existsb p l = true -> existsb p (l ++ l') = true.
Proof. intros H; rewrite existsb_app, H; reflexivity. Qed.

Lemma patched_menu_has (rq : menu_update_request) (d : database) (id : Z) :
  existsb (fun m => mi_item_id m =? id) (patched_menu rq d)
  = existsb (fun m => mi_item_id m =? id) (menu_items d).
Proof.
  unfold patched_menu; apply existsb_map_same; intros m.
  destruct (mi_item_id m =? ur_item_id rq); reflexivity.
Qed.

Lemma recompute_totals_has (order_id id : Z) (d : database) :
  existsb (fun o => od_order_id o =? id) (orders (recompute_totals order_id d))
  = existsb (fun o => od_order_id o =? id) (orders d).
Proof.
  unfold recompute_totals; cbn [orders with_orders].
  apply existsb_map_same; intros o.
  destruct (od_order_id o =? order_id); reflexivity.
Qed.

Lemma reserved_references (rq : reservation_request) (d : database) :
  existsb (fun c => cu_customer_id c =? rq_customer_id rq) (customers d) = true ->
  existsb (fun t => tb_table_id t =? rq_table_id rq) (tables d) = true ->
  references_hold d -> references_hold (reserved rq d).
Proof.
  intros Hc Ht (Hr & Hl & Hm); split; [| split; [exact Hl | exact Hm]].
  intros r Hin; cbn in Hin |- *.
  apply in_app_iff in Hin; destruct Hin as [Hin | [<- | []]];
    [apply Hr; exact Hin | split; assumption].
Qed.

Lemma ordered_references (rq : order_item_request) (it : menu_item) (d : database) :
  existsb (fun o => od_order_id o =? ir_order_id rq) (orders d) = true ->
  existsb (fun m => mi_item_id m =? ir_item_id rq) (menu_items d) = true ->
  references_hold d -> references_hold (ordered rq it d).
Proof.
  intros Ho Hi (Hr & Hl & Hm); unfold ordered.
  split; [exact Hr | split; [| exact Hm]].
  intros l Hin; rewrite recompute_totals_has; cbn in Hin |- *.
  apply in_app_iff in Hin; destruct Hin as [Hin | [<- | []]];
    [apply Hl; exact Hin | split; assumption].
Qed.

Lemma offered_references (rq : menu_item_request) (d : database) :
  existsb (fun c => ct_category_id c =? mr_category_id rq) (categories d) = true ->
  references_hold d -> references_hold (offered rq d).
Proof.
  intros Hc (Hr & Hl & Hm); split; [exact Hr | split].
  - intros l Hin; cbn in Hin |- *; destruct (Hl l Hin) as [H1 H2].
    split; [exact H1 | apply existsb_app_left; exact H2].
  - intros m Hin; cbn in Hin |- *.
    apply in_app_iff in Hin; destruct Hin as [Hin | [<- | []]];
      [apply Hm; exact Hin | exact Hc].
Qed.

Lemma updated_menu_references (rq : menu_update_request) (d : database) :
  references_hold d -> references_hold (updated_menu rq d).
Proof.
  intros (Hr & Hl & Hm); split; [exact Hr | split].
  - intros l Hin; cbn in Hin |- *; destruct (Hl l Hin) as [H1 H2].
    split; [exact H1 | rewrite patched_menu_has; exact H2].
  - intros m Hin; cbn in Hin |- *.
    unfold patched_menu in Hin; apply in_map_iff in Hin.
    destruct Hin as (m0 & <- & Hin).
    destruct (mi_item_id m0 =? ur_item_id rq); cbn; apply Hm; exact Hin.
Qed.

(** X7. The four commands that write keep the references between the
    tables: on a database where every reservation has its customer and
    table, every order line its order and menu item and every menu item its
    category, whatever create_reservation, add_order_item, add_menu_item or
    update_menu_item leaves behind has the same property. *)
Theorem commands_keep_references (today : date) (answer : bool)
        (rq : reservation_request) (irq : order_item_request)
        (mrq : menu_item_request) (urq : menu_update_request)
        (d d' : database) :
  references_hold d ->
  disk (create_reservation today answer rq (Some d)) = Some d'
  \/ disk (add_order_item answer irq (Some d)) = Some d'
  \/ disk (add_menu_item mrq (Some d)) = Some d'
  \/ disk (update_menu_item urq (Some d)) = Some d' ->
  references_hold d'.
Proof.
  intros Hd [H | [H | [H | H]]].
  - rewrite create_reservation_run in H.
    destruct (reservation_verdict today answer rq d) eqn:Hv; cbn in H;
      injection H as <-; try exact Hd.
    unfold reservation_verdict in Hv.
    destruct (date_ltb _ _); [discriminate |].
    destruct (_ <? 1); [discriminate |].
    destruct (existsb _ (customers d)) eqn:Hc; [| discriminate]; cbn in Hv.
    destruct (find _ (tables d)) as [tb |] eqn:Ht; [| discriminate].
    apply reserved_references; auto.
    apply (find_existsb _ _ _ Ht).
  - rewrite add_order_item_run in H.
    destruct (_ <? 1); [injection H as <-; exact Hd |].
    destruct (find _ (orders d)) as [o |] eqn:Ho; [| injection H as <-; exact Hd].
    destruct (text_in _ _); [injection H as <-; exact Hd |].
    destruct (find _ (menu_items d)) as [it |] eqn:Hi;
      [| injection H as <-; exact Hd].
    destruct (_ && _); [injection H as <-; exact Hd |].
    destruct (find _ (orders (ordered irq it d)));
      injection H as <-; [| exact Hd].
    apply ordered_references; auto;
      [apply (find_existsb _ _ _ Ho) | apply (find_existsb _ _ _ Hi)].
  - rewrite add_menu_item_run in H.
    destruct (Qle_bool _ _); [injection H as <-; exact Hd |].
    destruct (find _ (categories d)) as [c |] eqn:Hc;
      injection H as <-; [| exact Hd].
    apply offered_references; auto; apply (find_existsb _ _ _ Hc).
  - rewrite update_menu_item_run in H.
    destruct (no_updates _); [injection H as <-; exact Hd |].
    destruct (find _ (menu_items d)); [| injection H as <-; exact Hd].
    destruct (nonpositive _); injection H as <-; [exact Hd |].
    apply updated_menu_references; exact Hd.
Qed.

Lemma sample_db_references : references_hold sample_db.
Proof.
  split; [| split]; intros x Hin; cbn in Hin;
    repeat (destruct Hin as [<- | Hin]; [try split; reflexivity |]);
    contradiction.
Qed.

Lemma commands_keep_references_witness :
  references_hold (reserved (sample_request 19 10) sample_db).
Proof.
  apply (commands_keep_references sample_today true (sample_request 19 10)
           (mkOrderItemRequest 1 1 1 None)
           (mkMenuItemRequest "Soup" (5 # 1) 1 None)
           (mkMenuUpdateRequest 1 None None None)
           sample_db (reserved (sample_request 19 10) sample_db)).
  - exact sample_db_references.
  - left; reflexivity.
Defined.


(** ** Composing the commands *)

Lemma patched_idempotent (rq : menu_update_request) (m : menu_item) :
  patched rq (patched rq m) = patched rq m.
Proof.
  unfold patched; cbn.
  destruct (ur_price rq), (ur_available rq), (ur_description rq); reflexivity.
Qed.

Lemma patched_menu_idempotent (rq : menu_update_request) (d : database) :
  patched_menu rq (updated_menu rq d) = patched_menu rq d.
Proof.
  unfold updated_menu, patched_menu; cbn [menu_items with_menu_items].
  rewrite map_map; apply map_ext; intros m.
  destruct (mi_item_id m =? ur_item_id rq) eqn:E.
  - cbn [patched mi_item_id]; rewrite E; apply patched_idempotent.
  - rewrite E; reflexivity.
Qed.

Lemma find_patched_menu (rq : menu_update_request) (d : database) :
  find (fun m => mi_item_id m =? ur_item_id rq) (patched_menu rq d)
  = option_map (patched rq)
               (find (fun m => mi_item_id m =? ur_item_id rq) (menu_items d)).
Proof.
  unfold patched_menu.
  induction (menu_items d) as [| m ms IH]; cbn; [reflexivity |].
  destruct (mi_item_id m =? ur_item_id rq) eqn:E; cbn; rewrite E;
    [reflexivity | exact IH].
Qed.

(** X10. update_menu_item is idempotent: running the same request again on
    what the first run left changes nothing more. *)
Theorem update_menu_item_idempotent (rq : menu_update_request) (d d1 : database) :
  disk (update_menu_item rq (Some d)) = Some d1 ->
  disk (update_menu_item rq (Some d1)) = Some d1.
Proof.
  rewrite !update_menu_item_run.
  destruct (no_updates rq) eqn:Hno.
  { intros H; injection H as <-; reflexivity. }
  destruct (find _ (menu_items d)) as [it |] eqn:Hit.
  2: { intros H; injection H as <-; rewrite Hit; reflexivity. }
  destruct (nonpositive _) eqn:Hp.
  { intros H; injection H as <-; rewrite Hit; reflexivity. }
  intros H; injection H as <-.
  replace (menu_items (updated_menu rq d)) with (patched_menu rq d) by reflexivity.
  rewrite find_patched_menu, Hit; cbn [option_map disk].
  f_equal; unfold updated_menu at 1.
  rewrite patched_menu_idempotent; destruct d; reflexivity.
Qed.

Lemma update_menu_item_idempotent_witness :
  let rq := mkMenuUpdateRequest 1 (Some (20 # 1)) (Some false) (Some "Creamy") in
  disk (update_menu_item rq (Some (updated_menu rq sample_db)))
  = Some (updated_menu rq sample_db).
Proof.
  apply (update_menu_item_idempotent
           (mkMenuUpdateRequest 1 (Some (20 # 1)) (Some false) (Some "Creamy"))
           sample_db).
  reflexivity.
Defined.





(** ** view_menu *)


















(** ** view_available_tables *)

Lemma conflict_where_reserved (id : Z) (date_str : string) (t : time)
      (r : reservation) :
  conflict_where id date_str t r
  = (rs_table_id r =? id) && reserved_where date_str t r.
Proof.
  unfold conflict_where, reserved_where.
  rewrite <- !andb_assoc; reflexivity.
Qed.

(** A table is in the subquery exactly when the conflict query of
    [create_reservation] finds a reservation for it. *)
Lemma reserved_table_ids_conflict (id : Z) (date_str : string) (t : time)
      (d : database) :
  existsb (Z.eqb id) (reserved_table_ids date_str t d)
  = existsb (conflict_where id date_str t) (reservations d).
Proof.
  unfold reserved_table_ids.
  induction (reservations d) as [| r rs IH]; [reflexivity |].
  cbn [filter existsb]; rewrite conflict_where_reserved, <- IH.
  destruct (reserved_where date_str t r); cbn [map existsb].
  - rewrite andb_true_r, (Z.eqb_sym id); reflexivity.
  - rewrite andb_false_r; reflexivity.
Qed.

(** The run of [view_available_tables] on an initialized database. *)
Lemma view_available_tables_run (cols : table_columns) (dt : date) (t : time)
      (d : database) :
  view_available_tables cols dt t (Some d)
  = mkRun (inr (match available_query cols (isoformat dt) t d with
                | [] => NoTablesAvailable (isoformat dt) (hhmm t)
                | row :: rows =>
                    AvailableTables (isoformat dt) (hhmm t)
                                    (map table_line_of (row :: rows))
                end))
          [] [probe_of d; unit_of d [SELECT Tables]] (Some d).
Proof.
  unfold view_available_tables.
  rewrite check_database_exists_initialized; cbn [negb].
  rewrite transaction_query; cbn [result printed connections disk app].
  destruct (available_query cols (isoformat dt) t d); reflexivity.
Qed.

(** The lines shown are those of the rows of the query. *)
Lemma view_available_tables_shown (cols : table_columns) (dt : date) (t : time)
      (d : database) (o : tables_output) :
  result (view_available_tables cols dt t (Some d)) = inr o ->
  tables_shown o = map table_line_of (available_query cols (isoformat dt) t d).
Proof.
  rewrite view_available_tables_run; cbn [result].
  intros H; injection H as <-.
  destruct (available_query cols (isoformat dt) t d); reflexivity.
Qed.

Lemma available_query_In (cols : table_columns) (date_str : string) (t : time)
      (d : database) (l : table_line) :
  In l (map table_line_of (available_query cols date_str t d))
  <-> exists tb, In tb (tables d)
                 /\ available_where cols date_str t d tb = true
                 /\ l = line_of_table cols tb.
Proof.
  unfold available_query; rewrite in_map_iff; split.
  - intros [row [<- Hrow]].
    apply order_by_In, in_map_iff in Hrow; destruct Hrow as [tb [<- Htb]].
    apply filter_In in Htb; destruct Htb as [Hin Hw].
    exists tb; repeat split; assumption.
  - intros [tb [Hin [Hw ->]]].
    exists (available_row_of cols tb); split; [reflexivity |].
    apply order_by_In, in_map, filter_In; split; assumption.
Qed.

Lemma capacity_warning_silent (rq : reservation_request) (d : database) :
  ~ In TableAlreadyReserved (capacity_warning rq d).
Proof.
  unfold capacity_warning.
  destruct (find _ (tables d)) as [tb |]; [| intros []].
  destruct (rq_party_size rq >? tb_capacity tb); [| intros []].
  intros [H | []]; discriminate H.
Qed.

(** X14. The date and the time being given to both commands in the
    zero-padded forms YYYY-MM-DD and HH:MM: a table in use that the listing
    of a date and a time of day does not show cannot be reserved for them: a
    request for that table, date and time fails, whoever asks, and leaves
    the database as it was. *)
Theorem unlisted_table_is_refused (cols : table_columns) (today : date)
        (answer : bool) (rq : reservation_request) (d : database)
        (tb : dining_table) (o : tables_output) :
  result (view_available_tables cols (rq_date rq) (rq_time rq) (Some d)) = inr o ->
  In tb (tables d) ->
  tb_table_id tb = rq_table_id rq ->
  tb_is_active cols tb = 1 ->
  ~ In (line_of_table cols tb) (tables_shown o) ->
  (exists e, result (create_reservation today answer rq (Some d)) = inl e)
  /\ disk (create_reservation today answer rq (Some d)) = Some d.
Proof.
  intros Ho Hin Hid Hact Hno.
  rewrite (view_available_tables_shown _ _ _ _ _ Ho), available_query_In in Hno.
  assert (Hc : existsb (conflict_where (rq_table_id rq) (isoformat (rq_date rq))
                                       (rq_time rq)) (reservations d) = true).
  { rewrite <- reserved_table_ids_conflict, <- Hid.
    destruct (existsb _ (reserved_table_ids _ _ d)) eqn:E; [reflexivity |].
    exfalso; apply Hno; exists tb; repeat split; [exact Hin |].
    unfold available_where; rewrite Hact, E; reflexivity. }
  rewrite create_reservation_run; unfold reservation_verdict.
  destruct (date_ltb _ _); [split; [eexists |]; reflexivity |].
  destruct (_ <? 1); [split; [eexists |]; reflexivity |].
  destruct (negb _); [split; [eexists |]; reflexivity |].
  destruct (find _ (tables d)) as [tb' |]; [| split; [eexists |]; reflexivity].
  destruct (_ && negb answer); [split; [eexists |]; reflexivity |].
  rewrite Hc; split; [eexists |]; reflexivity.
Qed.

Lemma unlisted_table_is_refused_witness :
  (exists e, result (create_reservation sample_today true (sample_request 17 30)
                                        (Some sample_db)) = inl e)
  /\ disk (create_reservation sample_today true (sample_request 17 30)
                              (Some sample_db)) = Some sample_db.
Proof.
  apply (unlisted_table_is_refused sample_columns sample_today true
           (sample_request 17 30) sample_db (mkTable 1 "T01" 4)
           (NoTablesAvailable "2025-06-01" "17:30")).
  - reflexivity.
  - left; reflexivity.
  - reflexivity.
  - reflexivity.
  - intros [].
Defined.

(** X15. The date and the time being given to both commands in the
    zero-padded forms YYYY-MM-DD and HH:MM: every line of the listing of a
    date and a time of day is the line of a table in use which can be
    reserved for them: a request for that table, date and time is never
    answered with "Table already reserved", and its reservation is committed
    when the date is not past, the party is of one guest at least and fits
    in 64 bits, the customer exists and the operator confirms a party above
    the capacity. *)
Theorem listed_table_can_be_reserved (cols : table_columns) (dt : date)
        (t : time) (d : database) (o : tables_output) (l : table_line) :
  valid_date dt -> valid_time t ->
  result (view_available_tables cols dt t (Some d)) = inr o ->
  In l (tables_shown o) ->
  exists tb,
    In tb (tables d) /\ tb_is_active cols tb = 1 /\ l = line_of_table cols tb
    /\ forall (today : date) (answer : bool) (rq : reservation_request),
         rq_table_id rq = tb_table_id tb -> rq_date rq = dt -> rq_time rq = t ->
         ~ In TableAlreadyReserved
              (printed (create_reservation today answer rq (Some d)))
         /\ (date_ltb dt today = false ->
             1 <= rq_party_size rq ->
             int64 (rq_party_size rq) ->
             existsb (fun c => cu_customer_id c =? rq_customer_id rq) (customers d)
             = true ->
             answer = true ->
             disk (create_reservation today answer rq (Some d))
             = Some (reserved rq d)).
Proof.
  intros _ _ Ho Hl.
  rewrite (view_available_tables_shown _ _ _ _ _ Ho), available_query_In in Hl.
  destruct Hl as [tb [Hin [Hw ->]]].
  unfold available_where in Hw; apply andb_true_iff in Hw; destruct Hw as [Ha Hfree].
  apply Z.eqb_eq in Ha; apply negb_true_iff in Hfree.
  rewrite reserved_table_ids_conflict in Hfree.
  exists tb; split; [exact Hin |]; split; [exact Ha |]; split; [reflexivity |].
  intros today answer rq Hid Hdt Ht; subst dt t.
  rewrite <- Hid in Hfree.
  rewrite create_reservation_run.
  pose proof (capacity_warning_silent rq d) as Hs.
  unfold reservation_verdict; rewrite Hfree.
  assert (Hf : find (fun r => tb_table_id r =? rq_table_id rq) (tables d) <> None).
  { intros F; apply (find_none _ _ F) in Hin.
    rewrite Hid, Z.eqb_refl in Hin; discriminate Hin. }
  split.
  - destruct (date_ltb _ _); cbn [printed]; [intros [E | []]; discriminate E |].
    destruct (_ <? 1); cbn [printed]; [intros [E | []]; discriminate E |].
    destruct (negb _); cbn [printed]; [intros [E | []]; discriminate E |].
    destruct (find _ (tables d)) as [tb' |]; [| contradiction].
    destruct (_ && negb answer); exact Hs.
  - intros Hdate Hparty _ Hcu ->.
    rewrite Hdate, Hcu; cbn [negb].
    replace (rq_party_size rq <? 1) with false by (symmetry; apply Z.ltb_ge; lia).
    destruct (find _ (tables d)) as [tb' |]; [| contradiction].
    rewrite andb_false_r; reflexivity.
Qed.

Lemma listed_table_can_be_reserved_witness :
  exists tb,
    In tb (tables sample_db) /\ tb_is_active sample_columns tb = 1
    /\ mkTableLine "T01" 4 "Main Dining" = line_of_table sample_columns tb
    /\ forall (today : date) (answer : bool) (rq : reservation_request),
         rq_table_id rq = tb_table_id tb -> rq_date rq = mkDate 2025 6 1 ->
         rq_time rq = mkTime 20 0 ->
         ~ In TableAlreadyReserved
              (printed (create_reservation today answer rq (Some sample_db)))
         /\ (date_ltb (mkDate 2025 6 1) today = false ->
             1 <= rq_party_size rq ->
             int64 (rq_party_size rq) ->
             existsb (fun c => cu_customer_id c =? rq_customer_id rq)
                     (customers sample_db) = true ->
             answer = true ->
             disk (create_reservation today answer rq (Some sample_db))
             = Some (reserved rq sample_db)).
Proof.
  apply (listed_table_can_be_reserved sample_columns (mkDate 2025 6 1)
           (mkTime 20 0) sample_db
           (AvailableTables "2025-06-01" "20:00" [mkTableLine "T01" 4 "Main Dining"])).
  - repeat split; cbn; lia.
  - split; cbn; lia.
  - reflexivity.
  - left; reflexivity.
Defined.

Lemma location_capacity_le_total (a b : available_row) :
  location_capacity_le a b = false -> location_capacity_le b a = true.
Proof.
  unfold location_capacity_le; intros H.
  apply orb_false_iff in H; destruct H as [Hlt Hrest].
  destruct (String.eqb_spec (av_location a) (av_location b)) as [E | NE].
  - rewrite E, String.eqb_refl; cbn in *.
    apply Z.leb_gt in Hrest.
    replace (av_capacity b <=? av_capacity a) with true
      by (symmetry; apply Z.leb_le; lia).
    apply orb_true_r.
  - apply orb_true_iff; left; apply string_ltb_lt.
    rewrite String.compare_antisym.
    unfold String.ltb in Hlt.
    destruct (String.compare (av_location a) (av_location b)) eqn:C;
      try discriminate; [| reflexivity].
    apply String.compare_eq_iff in C; contradiction.
Qed.

Lemma location_capacity_le_trans (a b c : available_row) :
  location_capacity_le a b = true -> location_capacity_le b c = true ->
  location_capacity_le a c = true.
Proof.
  unfold location_capacity_le.
  rewrite !orb_true_iff, !andb_true_iff, !string_ltb_lt, !String.eqb_eq, !Z.leb_le.
  intros [H1 | [E1 L1]] [H2 | [E2 L2]].
  - left; eapply string_compare_lt_trans; eauto.
  - left; rewrite <- E2; exact H1.
  - left; rewrite E1; exact H2.
  - right; split; [congruence | lia].
Qed.

Lemma StronglySorted_map {A B : Type} (R : A -> A -> Prop) (S : B -> B -> Prop)
      (f : A -> B) (l : list A) :
  (forall a b, R a b -> S (f a) (f b)) ->
  StronglySorted R l -> StronglySorted S (map f l).
Proof.
  intros HRS; induction 1 as [| x l Hl IH Hx]; cbn; constructor; [exact IH |].
  rewrite Forall_forall in *; intros y Hy.
  apply in_map_iff in Hy; destruct Hy as [z [<- Hz]]; auto.
Qed.

(** X16. The date and the time being given in the zero-padded forms
    YYYY-MM-DD and HH:MM: [view_available_tables] issues no write and leaves
    the database as it was; when it shows its listing, the lines are in the
    order of their locations and, within a location, of their capacities;
    and the message that no table is available takes the place of the
    listing exactly when no table is in use and free of reservations around
    the time asked for. *)
Theorem view_available_tables_listing (cols : table_columns) (dt : date)
        (t : time) (d : database) :
  let r := view_available_tables cols dt t (Some d) in
  disk r = Some d
  /\ Forall read_only (connections r)
  /\ forall o, result r = inr o ->
       StronglySorted location_capacity_order (tables_shown o)
       /\ (o = NoTablesAvailable (isoformat dt) (hhmm t)
           <-> forall tb, In tb (tables d) ->
                          available_where cols (isoformat dt) t d tb = false).
Proof.
  cbv zeta; split; [| split].
  - rewrite view_available_tables_run; reflexivity.
  - rewrite view_available_tables_run; repeat constructor.
  - intros o Ho.
    pose proof (view_available_tables_shown _ _ _ _ _ Ho) as Hs.
    rewrite view_available_tables_run in Ho; cbn [result] in Ho.
    injection Ho as Ho.
    split.
    + rewrite Hs.
      apply (StronglySorted_map (fun a b => location_capacity_le a b = true)).
      * intros a b; unfold location_capacity_le, location_capacity_order, text_lt.
        rewrite orb_true_iff, andb_true_iff, string_ltb_lt, String.eqb_eq, Z.leb_le.
        cbn; tauto.
      * apply order_by_sorted;
          [apply location_capacity_le_total | apply location_capacity_le_trans].
    + split.
      * intros E tb Hin.
        destruct (available_where cols (isoformat dt) t d tb) eqn:Hw; [| reflexivity].
        assert (Hl : In (line_of_table cols tb)
                        (map table_line_of (available_query cols (isoformat dt) t d)))
          by (apply available_query_In; exists tb; auto).
        rewrite <- Hs, E in Hl; destruct Hl.
      * intros Hall.
        destruct (available_query cols (isoformat dt) t d) as [| row rows] eqn:Q;
          [symmetry; exact Ho | exfalso].
        assert (Hl : In (table_line_of row)
                        (map table_line_of (available_query cols (isoformat dt) t d)))
          by (rewrite Q; left; reflexivity).
        apply available_query_In in Hl; destruct Hl as [tb [Hin [Hw _]]].
        rewrite (Hall tb Hin) in Hw; discriminate Hw.
Qed.

Lemma view_available_tables_listing_witness :
  StronglySorted location_capacity_order [mkTableLine "T01" 4 "Main Dining"]
  /\ (AvailableTables "2025-06-01" "20:00" [mkTableLine "T01" 4 "Main Dining"]
      = NoTablesAvailable "2025-06-01" "20:00"
      <-> forall tb, In tb (tables sample_db) ->
                     available_where sample_columns "2025-06-01" (mkTime 20 0)
                                     sample_db tb = false).
Proof.
  apply (proj2 (proj2 (view_available_tables_listing
                         sample_columns (mkDate 2025 6 1) (mkTime 20 0) sample_db))
               (AvailableTables "2025-06-01" "20:00"
                                [mkTableLine "T01" 4 "Main Dining"])).
  reflexivity.
Defined.
